(** * Public-Grievance: the complaint classification service (rf.py)

    A shallow embedding of [rf.py]: the text sanitizer, the keyword
    classifier, the category validator, the [/submit_complaint] and [/vote]
    request handlers and the MongoDB collection they write to, followed by
    the properties of the classification pipeline.

    Conventions.
    - A Python [str] is the list of its Unicode code points ([pystr]); a
      [bytes] object is the list of its byte values.
    - What Python's runtime decides from the Unicode tables or from a
      third-party package ([str.lower], [str.isspace], [repr] of a string,
      [bson.ObjectId]) is a field of the class [PyRuntime]: every theorem
      holds for all runtimes.  [ascii_runtime] is a concrete one that agrees
      with CPython on ASCII text; it is used to evaluate the handlers on
      concrete requests.
    - The collection is a finite map from object ids to documents;
      [insert_one] and [update_one] always reach it, and [votes] is an
      unbounded integer.
    - The listing [/get_complaints] takes what the database driver and the
      interpreter decide (the regex match, the sort, [int], the printing of
      ids and dates) from the class [ListingRuntime]; [list_runtime] is a
      concrete one.
    - A handler is a computation in the monad [M]: it threads the collection
      and a log of the calls it makes, and it can raise. *)

From Stdlib Require Import ZArith List String Ascii Bool Lia DecimalString.
From stdpp Require Import base option list gmap sorting.

Local Open Scope Z_scope.

(** ** Python strings *)

Definition pystr : Type := list Z.

(** The code points of an ASCII literal. *)
Definition py (s : string) : pystr :=
  map (fun a : ascii => Z.of_N (N_of_ascii a)) (list_ascii_of_string s).

(** [p] is a prefix of [s] ([s.startswith(p)]). *)
Fixpoint starts_with (p s : pystr) : bool :=
  match p, s with
  | [], _ => true
  | _ :: _, [] => false
  | a :: p', b :: s' => (a =? b) && starts_with p' s'
  end.

(** [sub in s] on strings: [sub] occurs at some position of [s]. *)
Fixpoint contains (s sub : pystr) : bool :=
  starts_with sub s ||
  match s with
  | [] => false
  | _ :: s' => contains s' sub
  end.

(** The mathematical reading of [sub in s]. *)
Definition Substring (sub s : pystr) : Prop :=
  ∃ pre post, s = pre ++ sub ++ post.

(** [x in xs] on a list of strings. *)
Definition str_eqb (a b : pystr) : bool := bool_decide (a = b).

Definition str_in (x : pystr) (xs : list pystr) : bool :=
  existsb (str_eqb x) xs.

(** ** Configuration tables (rf.py, lines 17 and 49-61) *)

Definition MODEL_VERSION : pystr := py "1.2.0".

Definition CATEGORIES : list pystr :=
  [ py "Water Issues"; py "Road Issues"; py "Garbage Issues";
    py "Electricity"; py "Drainage Issues"; py "Other" ].

(** A Python [dict] iterates in insertion order: an association list. *)
Definition CATEGORY_KEYWORDS : list (pystr * list pystr) :=
  [ (py "Water Issues",
      map py ["water"; "drinking"; "supply"; "leak"; "pipe"; "tap"; "smell";
              "taste"; "pressure"]%string);
    (py "Road Issues",
      map py ["road"; "pothole"; "asphalt"; "street"; "highway"; "repair";
              "damage"; "construction"]%string);
    (py "Garbage Issues",
      map py ["garbage"; "trash"; "waste"; "collection"; "dump"; "bin";
              "clean"; "disposal"]%string);
    (py "Electricity",
      map py ["electricity"; "power"; "outage"; "blackout"; "wire";
              "transformer"; "voltage"; "flickering"]%string);
    (py "Drainage Issues",
      map py ["drainage"; "sewer"; "flood"; "waterlogging"; "blockage";
              "clog"; "overflow"]%string);
    (py "Other",
      map py ["noise"; "loudspeaker"; "park"; "tree"; "animal"; "stray";
              "public"; "nuisance"]%string) ].

(** ** The keyword classifier (rf.py, lines 72-78) *)

(** [any(keyword in complaint_text for keyword in keywords)] *)
Definition any_keyword (keywords : list pystr) (complaint_text : pystr) : bool :=
  existsb (fun keyword => contains complaint_text keyword) keywords.

(** The [for category, keywords in ....items()] loop with its early return. *)
Fixpoint first_category (items : list (pystr * list pystr))
    (complaint_text : pystr) : option pystr :=
  match items with
  | [] => None
  | (category, keywords) :: rest =>
      if any_keyword keywords complaint_text then Some category
      else first_category rest complaint_text
  end.

(** ** The category validator (rf.py, lines 80-81) *)

Definition validate_prediction (predicted_category complaint_text : pystr) : pystr :=
  if str_in predicted_category CATEGORIES then predicted_category else py "Other".

(** ** Python values, exceptions *)

(** The values a decoded JSON document is made of.  A float is kept as the
    text [repr] prints for it together with its truth value: the handlers
    look at nothing else of a float. *)
#[warnings="-register-all"]
Inductive pyval : Type :=
  | PNone
  | PBool (b : bool)
  | PInt (z : Z)
  | PFloat (text : pystr) (nonzero : bool)
  | PStr (s : pystr)
  | PList (l : list pyval)
  | PDict (d : list (pystr * pyval)).

(** A raised exception, with the message [str(e)] gives. *)
Inductive result (A : Type) : Type :=
  | Ok (a : A)
  | Raise (e : pystr).
Arguments Ok {A} a.
Arguments Raise {A} e.

(** A BSON object id: the number its twelve bytes spell. *)
Definition oid : Type := N.

(** What the interpreter and the [bson] package decide. *)
Class PyRuntime : Type := {
  str_lower : pystr → pystr;          (* str.lower() *)
  str_isspace : Z → bool;             (* str.isspace() of one character *)
  str_repr : pystr → pystr;           (* repr(s) of a str *)
  ObjectId : pyval → result oid       (* bson.ObjectId(x) *)
}.

(** [bool(v)] *)
Definition truthy (v : pyval) : bool :=
  match v with
  | PNone => false
  | PBool b => b
  | PInt z => negb (z =? 0)
  | PFloat _ nonzero => nonzero
  | PStr s => match s with [] => false | _ => true end
  | PList l => match l with [] => false | _ => true end
  | PDict d => match d with [] => false | _ => true end
  end.

(** Truth value of an [Optional[str]]. *)
Definition truthy_opt (o : option pystr) : bool :=
  match o with
  | Some (_ :: _) => true
  | _ => false
  end.

(** [o or default] on an [Optional[str]]. *)
Definition or_else (o : option pystr) (default : pystr) : pystr :=
  match o with
  | Some (c :: s) => c :: s
  | _ => default
  end.

(** [sep.join(parts)] *)
Fixpoint join (sep : pystr) (parts : list pystr) : pystr :=
  match parts with
  | [] => []
  | [x] => x
  | x :: rest => x ++ sep ++ join sep rest
  end.

Definition int_repr (z : Z) : pystr := py (NilZero.string_of_int (Z.to_int z)).

(** [d.get(key, default)] on a dict given by its items. *)
Fixpoint dict_lookup (d : list (pystr * pyval)) (key : pystr) : option pyval :=
  match d with
  | [] => None
  | (k, v) :: rest => if str_eqb k key then Some v else dict_lookup rest key
  end.

(** [data.get(key, default)]: only a dict has the method. *)
Definition py_get (data : pyval) (key : pystr) (dflt : pyval) : result pyval :=
  match data with
  | PDict d => Ok (default dflt (dict_lookup d key))
  | PList _ => Raise (py "'list' object has no attribute 'get'")
  | PStr _ => Raise (py "'str' object has no attribute 'get'")
  | PInt _ => Raise (py "'int' object has no attribute 'get'")
  | PFloat _ _ => Raise (py "'float' object has no attribute 'get'")
  | PBool _ => Raise (py "'bool' object has no attribute 'get'")
  | PNone => Raise (py "'NoneType' object has no attribute 'get'")
  end.

(** ** UTF-8 and ASCII codecs *)

Definition is_surrogate (c : Z) : bool := (0xD800 <=? c) && (c <=? 0xDFFF).

(** The bytes of one code point that is not a surrogate. *)
Definition utf8_encode_cp (c : Z) : list Z :=
  if c <? 0x80 then [c]
  else if c <? 0x800 then [0xC0 + c / 64; 0x80 + c mod 64]
  else if c <? 0x10000 then
    [0xE0 + c / 4096; 0x80 + (c / 64) mod 64; 0x80 + c mod 64]
  else
    [0xF0 + c / 262144; 0x80 + (c / 4096) mod 64; 0x80 + (c / 64) mod 64;
     0x80 + c mod 64].

(** [s.encode("utf-8", "replace")]: a lone surrogate cannot be encoded and
    is replaced by [?]. *)
Definition utf8_encode_replace (s : pystr) : list Z :=
  flat_map (fun c => if is_surrogate c then [63] else utf8_encode_cp c) s.

Definition is_cont (b : Z) : bool := (0x80 <=? b) && (b <? 0xC0).

Definition decode_error : pystr := py "'utf-8' codec can't decode bytes".

Definition cons_ok (c : Z) (r : result pystr) : result pystr :=
  match r with
  | Ok s => Ok (c :: s)
  | Raise e => Raise e
  end.

(** [bs.decode("utf-8")], strict: overlong forms, encoded surrogates and
    values above U+10FFFF are errors. *)
Fixpoint utf8_decode (bs : list Z) : result pystr :=
  match bs with
  | [] => Ok []
  | b0 :: r0 =>
      if (0 <=? b0) && (b0 <? 0x80) then cons_ok b0 (utf8_decode r0)
      else if (0xC2 <=? b0) && (b0 <? 0xE0) then
        match r0 with
        | b1 :: r1 =>
            if is_cont b1
            then cons_ok ((b0 - 0xC0) * 64 + (b1 - 0x80)) (utf8_decode r1)
            else Raise decode_error
        | _ => Raise decode_error
        end
      else if (0xE0 <=? b0) && (b0 <? 0xF0) then
        match r0 with
        | b1 :: b2 :: r2 =>
            let c := (b0 - 0xE0) * 4096 + (b1 - 0x80) * 64 + (b2 - 0x80) in
            if is_cont b1 && is_cont b2 && (0x800 <=? c) && negb (is_surrogate c)
            then cons_ok c (utf8_decode r2)
            else Raise decode_error
        | _ => Raise decode_error
        end
      else if (0xF0 <=? b0) && (b0 <? 0xF5) then
        match r0 with
        | b1 :: b2 :: b3 :: r3 =>
            let c := (b0 - 0xF0) * 262144 + (b1 - 0x80) * 4096
                     + (b2 - 0x80) * 64 + (b3 - 0x80) in
            if is_cont b1 && is_cont b2 && is_cont b3
               && (0x10000 <=? c) && (c <=? 0x10FFFF)
            then cons_ok c (utf8_decode r3)
            else Raise decode_error
        | _ => Raise decode_error
        end
      else Raise decode_error
  end.

(** [s.encode("ascii", "ignore")]: characters outside ASCII are dropped. *)
Definition ascii_encode_ignore (s : pystr) : list Z :=
  List.filter (fun c => c <? 0x80) s.

(** [bs.decode("ascii")] *)
Definition ascii_decode (bs : list Z) : result pystr :=
  if forallb (fun b => (0 <=? b) && (b <? 0x80)) bs then Ok bs
  else Raise (py "'ascii' codec can't decode byte").

(** ** The text sanitizer (rf.py, lines 64-70) *)

Definition sanitize_text (text : pyval) : result pystr :=
  match text with
  | PStr s =>
      match utf8_decode (utf8_encode_replace s) with
      | Ok r => Ok r
      | Raise _ => ascii_decode (ascii_encode_ignore s)
      end
  | _ => Ok []
  end.

(** A [str] object holds code points from U+0000 to U+10FFFF. *)
Definition wf_str (s : pystr) : Prop := Forall (fun c => 0 <= c <= 0x10FFFF) s.

(** What the UTF-8 round trip leaves of a string. *)
Definition replace_surrogates (s : pystr) : pystr :=
  map (fun c => if is_surrogate c then 63 else c) s.

(** ** The service: runtime, model artifacts, collection *)

(** A document of the [complaints] collection (rf.py, lines 116-123). *)
Record complaint_entry : Type := {
  complaint : pystr;
  category : pystr;
  timestamp : Z;
  votes : Z;
  prediction_source : pystr;
  model_version : pystr
}.

(** The calls a handler makes, in the order it makes them. *)
Inductive event : Type :=
  | CallSanitize (text : pyval)
  | CallManual (complaint_text : pystr)
  | CallModel (complaint_text : pystr)
  | CallInsert (doc : complaint_entry)
  | CallUpdate (id : oid).

(** The collection, keyed by [_id], and the log of calls. *)
Record world : Type := {
  collection : gmap oid complaint_entry;
  calls : list event
}.

(** A handler body: it reads and writes the world and returns or raises. *)
Definition M (A : Type) : Type := world → result A * world.

Definition ret {A} (a : A) : M A := fun w => (Ok a, w).

Definition bind {A B} (c : M A) (k : A → M B) : M B :=
  fun w =>
    match c w with
    | (Ok a, w') => k a w'
    | (Raise e, w') => (Raise e, w')
    end.

Notation "x <- c ;; k" := (bind c (fun x => k))
  (at level 100, c at next level, right associativity).
Notation "c ;;; k" := (bind c (fun _ => k))
  (at level 100, right associativity).

(** A pure call that may raise. *)
Definition lift {A} (r : result A) : M A := fun w => (r, w).

Definition record_call (ev : event) : M unit :=
  fun w => (Ok tt, {| collection := collection w; calls := calls w ++ [ev] |}).

(** [try: body  except Exception as e: handler(e)] *)
Definition try_except {A} (body : M A) (handler : pystr → M A) : M A :=
  fun w =>
    match body w with
    | (Ok a, w') => (Ok a, w')
    | (Raise e, w') => handler e w'
    end.

(** [insert_one(doc)]: the document is stored under an id that is not in
    use. *)
Definition insert_one (doc : complaint_entry) : M oid :=
  fun w =>
    let id := fresh (dom (collection w)) in
    (Ok id, {| collection := <[id := doc]> (collection w);
               calls := calls w ++ [CallInsert doc] |}).

Definition inc_votes (doc : complaint_entry) : complaint_entry :=
  {| complaint := complaint doc; category := category doc;
     timestamp := timestamp doc; votes := votes doc + 1;
     prediction_source := prediction_source doc;
     model_version := model_version doc |}.

(** [update_one({"_id": id}, {"$inc": {"votes": 1}}).modified_count] *)
Definition update_one_inc_votes (id : oid) : M Z :=
  fun w =>
    let w' := {| collection := alter inc_votes id (collection w);
                 calls := calls w ++ [CallUpdate id] |} in
    match collection w !! id with
    | Some _ => (Ok 1, w')
    | None => (Ok 0, w')
    end.

(** An HTTP response: the JSON body and the status code. *)
Definition response : Type := pyval * Z.

(** The three artifacts loaded at start-up (rf.py, lines 36-47); [None]
    where loading failed.  [features] is what the vectorizer hands to the
    model. *)
Record MLComponents (features : Type) : Type := {
  model : option (features → result Z);               (* .predict(x)[0] *)
  tfidf_vectorizer : option (pystr → result features); (* .transform([t]) *)
  label_encoder : option (Z → result pystr)     (* .inverse_transform([i])[0] *)
}.
Arguments model {features} _.
Arguments tfidf_vectorizer {features} _.
Arguments label_encoder {features} _.

Section Service.
Context `{rt : PyRuntime} {features : Type} (ml : MLComponents features).

(** [repr(v)] *)
Fixpoint py_repr (v : pyval) : pystr :=
  match v with
  | PNone => py "None"
  | PBool true => py "True"
  | PBool false => py "False"
  | PInt z => int_repr z
  | PFloat text _ => text
  | PStr s => str_repr s
  | PList l => py "[" ++ join (py ", ") (map py_repr l) ++ py "]"
  | PDict d =>
      py "{"
      ++ join (py ", ")
           (map (fun kv => str_repr (fst kv) ++ py ": " ++ py_repr (snd kv)) d)
      ++ py "}"
  end.

(** [str(v)] *)
Definition py_str (v : pyval) : pystr :=
  match v with
  | PStr s => s
  | _ => py_repr v
  end.

Fixpoint lstrip (s : pystr) : pystr :=
  match s with
  | [] => []
  | c :: s' => if str_isspace c then lstrip s' else s
  end.

(** [s.strip()] *)
Definition strip (s : pystr) : pystr := rev (lstrip (rev (lstrip s))).

(** [manual_category_detection] (rf.py, lines 72-78) *)
Definition manual_category_detection (complaint_text : pystr) : option pystr :=
  let complaint_text := str_lower complaint_text in
  first_category CATEGORY_KEYWORDS complaint_text.

Definition call_sanitize (text : pyval) : M pystr :=
  record_call (CallSanitize text) ;;; lift (sanitize_text text).

Definition call_manual (complaint_text : pystr) : M (option pystr) :=
  record_call (CallManual complaint_text) ;;;
  ret (manual_category_detection complaint_text).

(** The statistical branch (rf.py, lines 109-112). *)
Definition call_model (vectorizer : pystr → result features)
    (predict : features → result Z) (decode : Z → result pystr)
    (complaint_text : pystr) : M pystr :=
  record_call (CallModel complaint_text) ;;;
  tfidf <- lift (vectorizer complaint_text) ;;
  category_index <- lift (predict tfidf) ;;
  predicted_category <- lift (decode category_index) ;;
  ret (validate_prediction predicted_category complaint_text).

(** The body of a JSON answer. *)
Definition jsonify (items : list (string * pyval)) : pyval :=
  PDict (map (fun kv => (py (fst kv), snd kv)) items).

(** Lines 95-96: the complaint as the request gives it.  [request_json] is
    what [request.get_json(force=True, silent=True)] returns, [PNone] for
    a body that is not JSON. *)
Definition read_complaint (request_json : pyval) : result pystr :=
  let data := if truthy request_json then request_json else PDict [] in
  match py_get data (py "complaint") (PStr []) with
  | Ok value => Ok (strip (py_str value))
  | Raise e => Raise e
  end.

(** Lines 104-114: the three branches that choose the category.  The
    result is the pair [(manual_category, predicted_category)]. *)
Definition classify (complaint_text : pystr) : M (option pystr * pystr) :=
  manual_category <- call_manual complaint_text ;;
  predicted_category <-
    (if truthy_opt manual_category then
       ret (default [] manual_category)
     else
       match model ml, tfidf_vectorizer ml, label_encoder ml with
       | Some predict, Some vectorizer, Some decode =>
           call_model vectorizer predict decode complaint_text
       | _, _, _ =>
           again <- call_manual complaint_text ;;
           ret (or_else again (py "Other"))
       end) ;;
  ret (manual_category, predicted_category).

(** Lines 116-123. *)
Definition make_entry (complaint_text : pystr) (manual_category : option pystr)
    (predicted_category : pystr) (utcnow : Z) : complaint_entry :=
  {| complaint := complaint_text;
     category := predicted_category;
     timestamp := utcnow;
     votes := 0;
     prediction_source :=
       if truthy_opt manual_category then py "manual" else py "model";
     model_version := MODEL_VERSION |}.

Definition too_short : response :=
  (jsonify [("error"%string,
             PStr (py "Complaint must be at least 10 characters"))], 400).

Definition submitted (manual_category : option pystr)
    (predicted_category : pystr) : response :=
  (jsonify [("message"%string, PStr (py "Complaint submitted successfully!"));
            ("category"%string, PStr predicted_category);
            ("auto_corrected"%string, PBool (truthy_opt manual_category))],
   200).

Definition server_error (e : pystr) : response :=
  (jsonify [("error"%string, PStr e)], 500).

(** [submit_complaint] (rf.py, lines 93-134), over the stage that chooses
    the category; [utcnow] is the clock reading. *)
Definition submit_complaint_with
    (classifier : pystr → M (option pystr * pystr))
    (request_json : pyval) (utcnow : Z) : M response :=
  try_except
    (raw_complaint <- lift (read_complaint request_json) ;;
     sanitized <- call_sanitize (PStr raw_complaint) ;;
     let complaint_text := str_lower sanitized in
     if (length complaint_text <? 10)%nat then ret too_short
     else
       decision <- classifier complaint_text ;;
       let manual_category := fst decision in
       let predicted_category := snd decision in
       let complaint_entry :=
         make_entry complaint_text manual_category predicted_category utcnow in
       insert_one complaint_entry ;;;
       ret (submitted manual_category predicted_category))
    (fun e => ret (server_error e)).

Definition submit_complaint : pyval → Z → M response :=
  submit_complaint_with classify.

(** The degraded branch as the specification's open question words it:
    with no model and no keyword match the category is ["Other"]
    directly, without a second keyword pass. *)
Definition classify_direct (complaint_text : pystr) : M (option pystr * pystr) :=
  manual_category <- call_manual complaint_text ;;
  predicted_category <-
    (if truthy_opt manual_category then
       ret (default [] manual_category)
     else
       match model ml, tfidf_vectorizer ml, label_encoder ml with
       | Some predict, Some vectorizer, Some decode =>
           call_model vectorizer predict decode complaint_text
       | _, _, _ => ret (py "Other")
       end) ;;
  ret (manual_category, predicted_category).

Definition submit_complaint_direct : pyval → Z → M response :=
  submit_complaint_with classify_direct.

Definition missing_id : response :=
  (jsonify [("success"%string, PBool false);
            ("error"%string, PStr (py "Missing complaint ID"))], 400).

Definition vote_counted : response :=
  (jsonify [("success"%string, PBool true);
            ("message"%string, PStr (py "Vote counted"))], 200).

Definition not_found : response :=
  (jsonify [("success"%string, PBool false);
            ("error"%string, PStr (py "Complaint not found"))], 404).

Definition vote_error (e : pystr) : response :=
  (jsonify [("success"%string, PBool false); ("error"%string, PStr e)], 500).

(** [vote] (rf.py, lines 171-191).  [request_json] is [request.json]. *)
Definition vote (request_json : pyval) : M response :=
  try_except
    (let data := request_json in
     complaint_id <- lift (py_get data (py "id") PNone) ;;
     if negb (truthy complaint_id) then ret missing_id
     else
       id <- lift (ObjectId complaint_id) ;;
       modified_count <- update_one_inc_votes id ;;
       if modified_count =? 1 then ret vote_counted else ret not_found)
    (fun e => ret (vote_error e)).

(** The world after [n] votes on the same request, one after the other. *)
Fixpoint vote_times (n : nat) (request_json : pyval) (w : world) : world :=
  match n with
  | O => w
  | S n' => vote_times n' request_json (snd (vote request_json w))
  end.

End Service.

(** ** A concrete runtime *)

Definition ascii_lower_cp (c : Z) : Z :=
  if (65 <=? c) && (c <=? 90) then c + 32 else c.

(** The characters [str.isspace] accepts. *)
Definition unicode_isspace (c : Z) : bool :=
  ((9 <=? c) && (c <=? 13)) || ((28 <=? c) && (c <=? 32))
  || (c =? 0x85) || (c =? 0xA0) || (c =? 0x1680)
  || ((0x2000 <=? c) && (c <=? 0x200A))
  || (c =? 0x2028) || (c =? 0x2029) || (c =? 0x202F) || (c =? 0x205F)
  || (c =? 0x3000).

Definition hex_digit (c : Z) : option Z :=
  if (48 <=? c) && (c <=? 57) then Some (c - 48)
  else if (97 <=? c) && (c <=? 102) then Some (c - 87)
  else if (65 <=? c) && (c <=? 70) then Some (c - 55)
  else None.

Fixpoint hex_value (acc : Z) (s : pystr) : option Z :=
  match s with
  | [] => Some acc
  | c :: s' =>
      match hex_digit c with
      | Some d => hex_value (16 * acc + d) s'
      | None => None
      end
  end.

(** [bson.ObjectId] of a JSON value: a string of 24 hexadecimal digits is
    an id, any other string is an [InvalidId], any other value a
    [TypeError]. *)
Definition hex_ObjectId (x : pyval) : result oid :=
  match x with
  | PStr s =>
      match (if (length s =? 24)%nat then hex_value 0 s else None) with
      | Some n => Ok (Z.to_N n)
      | None =>
          Raise (py "'" ++ s ++ py "' is not a valid ObjectId, it must be a 12-byte input or a 24-character hex string")
      end
  | _ => Raise (py "id must be an instance of (bytes, str, ObjectId)")
  end.

(** A runtime that agrees with CPython on ASCII text: lowering maps [A-Z] to
    [a-z], and [repr] of a string of printable characters without quotes or
    backslashes puts it between single quotes. *)
Definition ascii_runtime : PyRuntime :=
  {| str_lower := map ascii_lower_cp;
     str_isspace := unicode_isspace;
     str_repr := fun s => py "'" ++ s ++ py "'";
     ObjectId := hex_ObjectId |}.

(** [ascii_runtime] with the one lowering of CPython that lengthens a
    string: U+0130, capital I with dot above, becomes the two characters
    U+0069 U+0307. *)
Definition dotted_runtime : PyRuntime :=
  {| str_lower := flat_map (fun c => if c =? 0x130 then [0x69; 0x307]
                                    else [ascii_lower_cp c]);
     str_isspace := unicode_isspace;
     str_repr := fun s => py "'" ++ s ++ py "'";
     ObjectId := hex_ObjectId |}.

(** No artifact could be loaded. *)
Definition no_model : MLComponents unit :=
  {| model := None; tfidf_vectorizer := None; label_encoder := None |}.

(** Artifacts whose decoded label is always [label]. *)
Definition constant_model (label : pystr) : MLComponents unit :=
  {| model := Some (fun _ => Ok 0);
     tfidf_vectorizer := Some (fun _ => Ok tt);
     label_encoder := Some (fun _ => Ok label) |}.

(** Artifacts whose vectorizer raises. *)
Definition failing_model (message : pystr) : MLComponents unit :=
  {| model := Some (fun _ => Ok 0);
     tfidf_vectorizer := Some (fun _ => Raise message);
     label_encoder := Some (fun _ => Ok (py "Other")) |}.

Definition empty_world : world := {| collection := ∅; calls := [] |}.

(** The requests of the examples. *)
Definition complaint_request (text : string) : pyval :=
  PDict [(py "complaint", PStr (py text))].

Definition vote_request (id : string) : pyval := PDict [(py "id", PStr (py id))].

(** A collection with one document, under the id 1. *)
Definition one_document : world :=
  {| collection := {[ 1%N := make_entry (py "water leak near my house")
                               (Some (py "Water Issues")) (py "Water Issues") 0 ]};
     calls := [] |}.

(** ** Vocabulary of the statements *)

(** Some keyword of the list occurs in the text. *)
Definition Hits (keywords : list pystr) (text : pystr) : Prop :=
  ∃ keyword, keyword ∈ keywords ∧ Substring keyword text.

(** The [i]-th entry of the table is the first one with a keyword in the
    text. *)
Definition FirstHit (items : list (pystr * list pystr)) (text : pystr)
    (i : nat) (category : pystr) : Prop :=
  ∃ keywords,
    items !! i = Some (category, keywords) ∧ Hits keywords text ∧
    ∀ j cj kj, (j < i)%nat → items !! j = Some (cj, kj) → ¬ Hits kj text.

(** The world after more calls were logged. *)
Definition logged (w : world) (evs : list event) : world :=
  {| collection := collection w; calls := calls w ++ evs |}.

(** The world after [insert_one doc]. *)
Definition stored (w : world) (doc : complaint_entry) : world :=
  {| collection := <[fresh (dom (collection w)) := doc]> (collection w);
     calls := calls w ++ [CallInsert doc] |}.

(** [model and tfidf_vectorizer and label_encoder] *)
Definition available {features : Type} (ml : MLComponents features) : bool :=
  match model ml, tfidf_vectorizer ml, label_encoder ml with
  | Some _, Some _, Some _ => true
  | _, _, _ => false
  end.

(** What a client and the database see of a handler's run: the answer and
    the collection. *)
Definition observable (run : result response * world)
    : result response * gmap oid complaint_entry :=
  (fst run, collection (snd run)).

(** A document with its vote count set to [v] and nothing else changed. *)
Definition with_votes (doc : complaint_entry) (v : Z) : complaint_entry :=
  {| complaint := complaint doc; category := category doc;
     timestamp := timestamp doc; votes := v;
     prediction_source := prediction_source doc;
     model_version := model_version doc |}.

(** ** Listing (rf.py, lines 140-168) *)

(** What the listing takes from the interpreter and from the database
    driver. *)
Class ListingRuntime : Type := {
  int_of_str : pystr → result Z;          (* int(s) of a str *)
  regex_search_i :                        (* $regex pattern, $options "i": *)
    pystr → result (pystr → bool);        (* the match, or the pattern refused *)
  sort_timestamp_desc :                   (* .sort("timestamp", -1) *)
    list (oid * complaint_entry) → list (oid * complaint_entry);
  oid_str : oid → pystr;                  (* str(c["_id"]) *)
  strftime : Z → pystr                    (* .strftime('%Y-%m-%d %H:%M:%S') *)
}.

(** [request.args.get(key)]: the first value given for the key. *)
Fixpoint args_get (args : list (pystr * pystr)) (key : pystr) : option pystr :=
  match args with
  | [] => None
  | (k, v) :: rest => if str_eqb k key then Some v else args_get rest key
  end.

(** The documents a query selects, in the order the collection holds them. *)
Definition find_all (query : complaint_entry → bool) (w : world)
    : list (oid * complaint_entry) :=
  List.filter (fun kv => query (snd kv)) (map_to_list (collection w)).

(** The two queries of the listing: [{}] and
    [{"category": {"$regex": pattern, "$options": "i"}}]. *)
Inductive mongo_query : Type :=
  | MatchAll
  | CategoryRegex (pattern : pystr).

(** The largest integer a BSON document holds. *)
Definition int64_max : Z := 2 ^ 63 - 1.

(** One HTTP request to one of the three routes that use the collection. *)
Inductive http_request : Type :=
  | PostSubmitComplaint (request_json : pyval) (utcnow : Z)
  | GetComplaints (args : list (pystr * pystr))
  | PostVote (request_json : pyval).

Section Listing.
Context `{rt : PyRuntime} `{lr : ListingRuntime}.
Context {features : Type} (ml : MLComponents features).

(** Line 147: the empty query for ["All"], else a case-insensitive regex
    anchored at both ends. *)
Definition listing_query (category_arg : pystr) : mongo_query :=
  if str_eqb category_arg (py "All") then MatchAll
  else CategoryRegex (py "^" ++ category_arg ++ py "$").

(** The documents a query matches, as the database decides when it runs
    the query: a pattern that is not a regular expression is an error. *)
Definition compile_query (query : mongo_query)
    : result (complaint_entry → bool) :=
  match query with
  | MatchAll => Ok (fun _ => true)
  | CategoryRegex pattern =>
      match regex_search_i pattern with
      | Ok matches => Ok (fun doc => matches (category doc))
      | Raise e => Raise e
      end
  end.

(** [find(query).sort("timestamp", -1).skip(skip).limit(limit)], read with
    [list].  The driver refuses a negative [skip] when [skip] is called, and
    a [skip] that does not fit 8 bytes when it encodes the command; the
    database refuses a pattern that is not a regular expression. *)
Definition find_sorted_page (query : mongo_query) (skip limit : Z)
    : M (list (oid * complaint_entry)) :=
  fun w =>
    if skip <? 0 then (Raise (py "skip must be >= 0"), w)
    else if int64_max <? skip then
      (Raise (py "MongoDB can only handle up to 8-byte ints"), w)
    else
      match compile_query query with
      | Raise e => (Raise e, w)
      | Ok matches =>
          (Ok (take (Z.to_nat limit)
                 (drop (Z.to_nat skip)
                    (sort_timestamp_desc (find_all matches w)))),
           w)
      end.

(** [count_documents(query)] *)
Definition count_documents (query : mongo_query) : M Z :=
  fun w =>
    match compile_query query with
    | Raise e => (Raise e, w)
    | Ok matches => (Ok (Z.of_nat (length (find_all matches w))), w)
    end.

(** Lines 153-160: one listed complaint. *)
Definition render_complaint (c : oid * complaint_entry) : pyval :=
  jsonify [("_id"%string, PStr (oid_str (fst c)));
           ("complaint"%string, PStr (complaint (snd c)));
           ("category"%string, PStr (category (snd c)));
           ("votes"%string, PInt (votes (snd c)));
           ("timestamp"%string, PStr (strftime (timestamp (snd c))));
           ("prediction_source"%string, PStr (prediction_source (snd c)))].

Definition listing (complaints : list (oid * complaint_entry))
    (total page per_page : Z) : response :=
  (jsonify [("complaints"%string, PList (map render_complaint complaints));
            ("total"%string, PInt total);
            ("page"%string, PInt page);
            ("per_page"%string, PInt per_page)], 200).

(** Line 144: [int(request.args.get('page', 1))]. *)
Definition page_arg (args : list (pystr * pystr)) : result Z :=
  match args_get args (py "page") with
  | Some s => int_of_str s
  | None => Ok 1
  end.

(** Line 143: [request.args.get('category', 'All').strip()]. *)
Definition category_arg (args : list (pystr * pystr)) : pystr :=
  strip (default (py "All") (args_get args (py "category"))).

(** [get_complaints] (rf.py, lines 141-168); [args] is [request.args]. *)
Definition get_complaints (args : list (pystr * pystr)) : M response :=
  try_except
    (let category := category_arg args in
     page <- lift (page_arg args) ;;
     let per_page := 20 in
     let query := listing_query category in
     complaints <- find_sorted_page query ((page - 1) * per_page) per_page ;;
     total <- count_documents query ;;
     ret (listing complaints total page per_page))
    (fun e => ret (server_error e)).

(** The routes (rf.py, lines 92, 140 and 170). *)
Definition handle (r : http_request) : M response :=
  match r with
  | PostSubmitComplaint request_json utcnow =>
      submit_complaint ml request_json utcnow
  | GetComplaints args => get_complaints args
  | PostVote request_json => vote request_json
  end.

(** The world after the requests were served one after the other. *)
Fixpoint serve (requests : list http_request) (w : world) : world :=
  match requests with
  | [] => w
  | r :: rest => serve rest (snd (handle r w))
  end.

End Listing.

(** ** A concrete listing runtime *)

Definition digit_value (c : Z) : option Z :=
  if (48 <=? c) && (c <=? 57) then Some (c - 48) else None.

Fixpoint decimal_value (acc : Z) (s : pystr) : option Z :=
  match s with
  | [] => Some acc
  | c :: s' =>
      match digit_value c with
      | Some d => decimal_value (10 * acc + d) s'
      | None => None
      end
  end.

(** [int(s)] on an optional minus sign followed by ASCII digits; any other
    text is a [ValueError]. *)
Definition decimal_int (s : pystr) : result Z :=
  let bad := Raise (py "invalid literal for int() with base 10") in
  match s with
  | [] => bad
  | 45 :: d :: digits =>
      match decimal_value 0 (d :: digits) with
      | Some n => Ok (- n)
      | None => bad
      end
  | _ => match decimal_value 0 s with Some n => Ok n | None => bad end
  end.

Definition hex_char (d : Z) : Z := if d <? 10 then 48 + d else 87 + d.

Fixpoint hex_digits (n : nat) (x : Z) (acc : pystr) : pystr :=
  match n with
  | O => acc
  | S n' => hex_digits n' (x / 16) (hex_char (x mod 16) :: acc)
  end.

Definition timestamp_ge (a b : oid * complaint_entry) : Prop :=
  timestamp (snd b) <= timestamp (snd a).

#[global] Instance timestamp_ge_dec (a b : oid * complaint_entry)
  : Decision (timestamp_ge a b) := decide (timestamp (snd b) <= timestamp (snd a)).

(** The characters that are operators in a regular expression. *)
Definition regex_operator (c : Z) : bool :=
  existsb (Z.eqb c) (py "\^$.|?*+()[]{}").

(** A regex engine for literal patterns: [^text$] with no operator in
    [text] matches [text] whatever the case of its ASCII letters; a pattern
    of another shape is refused (the database refuses only those that are
    not regular expressions, such as ["^($"]). *)
Definition literal_regex_i (pattern : pystr) : result (pystr → bool) :=
  match pattern with
  | 94 :: rest =>
      match rev rest with
      | 36 :: body =>
          if existsb regex_operator body
          then Raise (py "Regular expression is invalid")
          else Ok (fun subject =>
                     str_eqb (map ascii_lower_cp (rev body))
                             (map ascii_lower_cp subject))
      | _ => Raise (py "Regular expression is invalid")
      end
  | _ => Raise (py "Regular expression is invalid")
  end.

(** A runtime for the listing: decimal page numbers, the regex engine for
    literal patterns, a merge sort, 24 hexadecimal digits for an id, and
    the clock reading in decimal in place of the calendar date. *)
Definition list_runtime : ListingRuntime :=
  {| int_of_str := decimal_int;
     regex_search_i := literal_regex_i;
     sort_timestamp_desc := merge_sort timestamp_ge;
     oid_str := fun id => hex_digits 24 (Z.of_N id) [];
     strftime := int_repr |}.

(** ** Vocabulary of the further properties *)

(** No character of the string is a lone surrogate. *)
Definition encodable (s : pystr) : Prop :=
  Forall (fun c => is_surrogate c = false) s.

(** What every stored document satisfies. *)
Definition doc_ok (doc : complaint_entry) : Prop :=
  category doc ∈ CATEGORIES ∧
  (10 ≤ length (complaint doc))%nat ∧
  0 <= votes doc ∧
  prediction_source doc ∈ [py "manual"; py "model"] ∧
  model_version doc = MODEL_VERSION.

Definition store_ok (w : world) : Prop :=
  ∀ id doc, collection w !! id = Some doc → doc_ok doc.

(** The document a vote request addresses, when it addresses one. *)
Definition vote_target `{rt : PyRuntime} (request_json : pyval) : option oid :=
  match py_get request_json (py "id") PNone with
  | Ok complaint_id =>
      if truthy complaint_id then
        match ObjectId complaint_id with
        | Ok id => Some id
        | Raise _ => None
        end
      else None
  | Raise _ => None
  end.

(** Lines 109-111 as one step: the decoded label, or the first exception. *)
Definition model_label {features : Type} (vectorizer : pystr → result features)
    (predict : features → result Z) (decode : Z → result pystr)
    (complaint_text : pystr) : result pystr :=
  match vectorizer complaint_text with
  | Raise e => Raise e
  | Ok tfidf =>
      match predict tfidf with
      | Raise e => Raise e
      | Ok category_index => decode category_index
      end
  end.

(** The sort is a sort: it permutes its input and puts later readings
    first. *)
Definition sorts_by_timestamp_desc
    (sort : list (oid * complaint_entry) → list (oid * complaint_entry)) : Prop :=
  ∀ l, sort l ≡ₚ l ∧ StronglySorted timestamp_ge (sort l).

(** The complaints of page [p], counted from 0, of a listing. *)
Definition page_of (l : list (oid * complaint_entry)) (p : nat)
    : list (oid * complaint_entry) :=
  take 20 (drop (20 * p) l).

(** * Properties of the pure stages *)

(** Linear arithmetic with the quotients and remainders of the encoder. *)
Ltac div_lia := Z.to_euclidean_division_equations; lia.

(** Settle the comparisons the decoder makes on the bytes in the goal. *)
Ltac decide_tests :=
  repeat match goal with
    | |- context [?a <? ?b] =>
        (rewrite (proj2 (Z.ltb_lt a b)) by div_lia)
        || (rewrite (proj2 (Z.ltb_ge a b)) by div_lia)
    | |- context [?a <=? ?b] =>
        (rewrite (proj2 (Z.leb_le a b)) by div_lia)
        || (rewrite (proj2 (Z.leb_gt a b)) by div_lia)
    end.

Lemma starts_with_spec (p s : pystr) :
  starts_with p s = true ↔ ∃ post, s = p ++ post.
Proof.
  revert s; induction p as [|a p IH]; intros s; simpl.
  - split; [intros _; by exists s | done].
  - destruct s as [|b s].
    + split; [done | intros [post Hp]; discriminate].
    + rewrite andb_true_iff, Z.eqb_eq, IH. split.
      * intros [-> [post ->]]. by exists post.
      * intros [post Hp]. injection Hp as -> ->. eauto.
Qed.

Lemma contains_spec (s sub : pystr) :
  contains s sub = true ↔ Substring sub s.
Proof.
  unfold Substring. induction s as [|b s IH].
  - simpl. rewrite orb_false_r, starts_with_spec. split.
    + intros [post Hp]. by exists [], post.
    + intros [pre [post Hp]]. destruct pre; [by exists post | discriminate].
  - cbn [contains]. rewrite orb_true_iff, starts_with_spec, IH. split.
    + intros [[post Hp] | [pre [post Hp]]].
      * by exists [], post.
      * exists (b :: pre), post. by rewrite Hp.
    + intros [pre [post Hp]]. destruct pre as [|c pre].
      * left. by exists post.
      * right. injection Hp as -> ->. eauto.
Qed.

(** ** Keyword classifier *)

Lemma any_keyword_spec (keywords : list pystr) (text : pystr) :
  any_keyword keywords text = true ↔ Hits keywords text.
Proof.
  unfold any_keyword, Hits. rewrite existsb_exists. split.
  - intros [kw [Hin Hc]]. exists kw. split.
    + by apply list_elem_of_In.
    + by apply contains_spec.
  - intros [kw [Hin Hs]]. exists kw. split.
    + by apply list_elem_of_In.
    + by apply contains_spec.
Qed.

Lemma any_keyword_false (keywords : list pystr) (text : pystr) :
  any_keyword keywords text = false ↔ ¬ Hits keywords text.
Proof.
  rewrite <- any_keyword_spec. destruct (any_keyword keywords text); split;
    congruence.
Qed.

Lemma first_category_Some (items : list (pystr * list pystr)) (text c : pystr) :
  first_category items text = Some c ↔ ∃ i, FirstHit items text i c.
Proof.
  induction items as [|[c0 k0] items IH]; simpl.
  - split; [done | intros [i [kws [Hl _]]]; by destruct i].
  - destruct (any_keyword k0 text) eqn:Hany.
    + apply any_keyword_spec in Hany. split.
      * intros [= <-]. exists 0%nat, k0. repeat split; [done | lia].
      * intros [i [kws (Hl & Hh & Hfirst)]]. destruct i as [|i].
        -- simpl in Hl. by injection Hl as -> _.
        -- exfalso. apply (Hfirst 0%nat c0 k0); [lia | done | done].
    + apply any_keyword_false in Hany. rewrite IH. split.
      * intros [i [kws (Hl & Hh & Hfirst)]]. exists (S i), kws.
        repeat split; [done | done |].
        intros [|j] cj kj Hlt Hj; simpl in Hj.
        -- by injection Hj as <- <-.
        -- apply (Hfirst j cj kj); [lia | done].
      * intros [i [kws (Hl & Hh & Hfirst)]]. destruct i as [|i].
        -- simpl in Hl. injection Hl as <- <-. contradiction.
        -- exists i, kws. repeat split; [done | done |].
           intros j cj kj Hlt Hj. apply (Hfirst (S j) cj kj); [lia | done].
Qed.

Lemma first_category_None (items : list (pystr * list pystr)) (text : pystr) :
  first_category items text = None ↔
  ∀ c keywords, (c, keywords) ∈ items → ¬ Hits keywords text.
Proof.
  induction items as [|[c0 k0] items IH]; simpl.
  - split; [intros _ c kws Hin; by apply elem_of_nil in Hin | done].
  - destruct (any_keyword k0 text) eqn:Hany.
    + apply any_keyword_spec in Hany. split; [done |].
      intros Hno. exfalso. apply (Hno c0 k0); [left | done].
    + apply any_keyword_false in Hany. rewrite IH. split.
      * intros Hno c kws Hin. apply elem_of_cons in Hin as [[= -> ->] | Hin];
          [done | by apply (Hno c kws)].
      * intros Hno c kws Hin. apply (Hno c kws). by right.
Qed.

Lemma FirstHit_unique (items : list (pystr * list pystr)) (text : pystr)
    (i j : nat) (ci cj : pystr) :
  FirstHit items text i ci → FirstHit items text j cj → i = j ∧ ci = cj.
Proof.
  intros [ki (Hi & Hhi & Hfi)] [kj (Hj & Hhj & Hfj)].
  destruct (Nat.lt_trichotomy i j) as [Hlt | [-> | Hlt]].
  - exfalso. by apply (Hfj i ci ki).
  - split; [done | congruence].
  - exfalso. by apply (Hfi j cj kj).
Qed.

Lemma CATEGORY_KEYWORDS_names : map fst CATEGORY_KEYWORDS = CATEGORIES.
Proof. reflexivity. Qed.

Lemma CATEGORIES_NoDup : NoDup CATEGORIES.
Proof. apply (bool_decide_unpack (NoDup CATEGORIES)). by vm_compute. Qed.

Section KeywordClassifier.
Context `{rt : PyRuntime}.

(** C1.  [manual_category_detection] returns the first category of the
    table, in the order Water Issues, Road Issues, Garbage Issues,
    Electricity, Drainage Issues, Other, one of whose keywords is a
    substring of the lowercased input; when keywords of two categories
    occur the earlier category is the answer, whatever the positions and
    the number of the occurrences; the answer is [None] exactly when no
    keyword of any category occurs. *)
Theorem manual_category_detection_first_match (complaint_text : pystr) :
  let lowered := str_lower complaint_text in
  map fst CATEGORY_KEYWORDS = CATEGORIES ∧
  (∀ c, manual_category_detection complaint_text = Some c ↔
        ∃ i, FirstHit CATEGORY_KEYWORDS lowered i c) ∧
  (∀ i j ci ki cj kj,
      (i < j)%nat →
      CATEGORY_KEYWORDS !! i = Some (ci, ki) →
      CATEGORY_KEYWORDS !! j = Some (cj, kj) →
      Hits ki lowered → Hits kj lowered →
      ∃ k ck, (k ≤ i)%nat ∧ FirstHit CATEGORY_KEYWORDS lowered k ck ∧
              manual_category_detection complaint_text = Some ck ∧ ck ≠ cj) ∧
  (manual_category_detection complaint_text = None ↔
   ∀ c keywords, (c, keywords) ∈ CATEGORY_KEYWORDS → ¬ Hits keywords lowered).
Proof.
  intros lowered. unfold manual_category_detection. fold lowered.
  split; [reflexivity |]. split; [| split].
  - intros c. apply first_category_Some.
  - intros i j ci ki cj kj Hlt Hi Hj Hhi Hhj.
    destruct (first_category CATEGORY_KEYWORDS lowered) as [ck|] eqn:Hfc.
    + pose proof Hfc as Hfirst.
      apply first_category_Some in Hfirst as [k Hk].
      assert (Hle : (k ≤ i)%nat).
      { destruct Hk as [kk (_ & _ & Hmin)].
        destruct (Nat.le_gt_cases k i) as [|Hgt]; [done |].
        exfalso. by apply (Hmin i ci ki). }
      exists k, ck. repeat split; [done | done |].
      intros ->. destruct Hk as [kk (Hlk & _ & _)].
      assert (Hnd : NoDup (map fst CATEGORY_KEYWORDS))
        by (rewrite CATEGORY_KEYWORDS_names; apply CATEGORIES_NoDup).
      assert (k = j); [| lia].
      eapply NoDup_lookup; [exact Hnd | |];
        rewrite list_lookup_fmap; [by rewrite Hlk | by rewrite Hj].
    + exfalso. rewrite first_category_None in Hfc.
      apply (Hfc ci ki); [| done]. by eapply list_elem_of_lookup_2.
  - apply first_category_None.
Qed.

End KeywordClassifier.

(** ** Category validator *)

Lemma str_in_spec (x : pystr) (xs : list pystr) : str_in x xs = true ↔ x ∈ xs.
Proof.
  unfold str_in, str_eqb. rewrite existsb_exists. split.
  - intros [y [Hin Heq]]. apply bool_decide_eq_true in Heq as ->.
    by apply list_elem_of_In.
  - intros Hin. exists x. split; [by apply list_elem_of_In |].
    by apply bool_decide_eq_true.
Qed.

Lemma Other_in_CATEGORIES : py "Other" ∈ CATEGORIES.
Proof. apply str_in_spec. by vm_compute. Qed.

Lemma validate_prediction_in (candidate text : pystr) :
  validate_prediction candidate text ∈ CATEGORIES.
Proof.
  unfold validate_prediction.
  destruct (str_in candidate CATEGORIES) eqn:Hin.
  - by apply str_in_spec.
  - apply Other_in_CATEGORIES.
Qed.

(** C8.  [validate_prediction] returns the candidate unchanged when it is a
    member of [CATEGORIES] and ["Other"] otherwise; the result depends on
    the candidate alone. *)
Theorem validate_prediction_spec (candidate complaint_text : pystr) :
  (candidate ∈ CATEGORIES →
   validate_prediction candidate complaint_text = candidate) ∧
  (candidate ∉ CATEGORIES →
   validate_prediction candidate complaint_text = py "Other") ∧
  (∀ other_text,
     validate_prediction candidate other_text
     = validate_prediction candidate complaint_text).
Proof.
  unfold validate_prediction. repeat split.
  - intros Hin. apply str_in_spec in Hin. by rewrite Hin.
  - intros Hout. destruct (str_in candidate CATEGORIES) eqn:Hin; [| done].
    apply str_in_spec in Hin. contradiction.
Qed.

(** C9.  The validator is idempotent. *)
Theorem validate_prediction_idempotent (x complaint_text : pystr) :
  validate_prediction (validate_prediction x complaint_text) complaint_text
  = validate_prediction x complaint_text.
Proof.
  unfold validate_prediction at 1.
  by rewrite (proj2 (str_in_spec _ _) (validate_prediction_in x complaint_text)).
Qed.

(** ** Text sanitizer *)

Lemma utf8_decode_encode_cp (c : Z) (rest : list Z) :
  0 <= c <= 0x10FFFF → is_surrogate c = false →
  utf8_decode (utf8_encode_cp c ++ rest) = cons_ok c (utf8_decode rest).
Proof.
  intros Hc Hs. unfold is_surrogate in Hs.
  apply andb_false_iff in Hs. rewrite Z.leb_gt, Z.leb_gt in Hs.
  unfold utf8_encode_cp.
  destruct (Z.ltb_spec c 0x80); [| destruct (Z.ltb_spec c 0x800);
    [| destruct (Z.ltb_spec c 0x10000)]];
    cbn [app utf8_decode]; unfold is_cont, is_surrogate.
  - by decide_tests.
  - decide_tests. cbn [andb]. f_equal. div_lia.
  - replace ((0xE0 + c / 4096 - 0xE0) * 4096 + (0x80 + (c / 64) mod 64 - 0x80) * 64
             + (0x80 + c mod 64 - 0x80)) with c by div_lia.
    destruct Hs; by decide_tests.
  - replace ((0xF0 + c / 262144 - 0xF0) * 262144
             + (0x80 + (c / 4096) mod 64 - 0x80) * 4096
             + (0x80 + (c / 64) mod 64 - 0x80) * 64
             + (0x80 + c mod 64 - 0x80)) with c by div_lia.
    by decide_tests.
Qed.

Lemma utf8_round_trip (s : pystr) :
  wf_str s → utf8_decode (utf8_encode_replace s) = Ok (replace_surrogates s).
Proof.
  unfold wf_str, utf8_encode_replace, replace_surrogates.
  induction 1 as [|c s Hc _ IH]; [done |].
  cbn [flat_map map]. destruct (is_surrogate c) eqn:Hs.
  - cbn [app utf8_decode]. cbn. by rewrite IH.
  - rewrite utf8_decode_encode_cp by done. by rewrite IH.
Qed.

Lemma ascii_fallback_ok (s : pystr) :
  Forall (fun c => 0 <= c) s →
  ascii_decode (ascii_encode_ignore s) = Ok (List.filter (fun c => c <? 0x80) s).
Proof.
  intros Hs. unfold ascii_decode, ascii_encode_ignore.
  replace (forallb _ _) with true; [done |]. symmetry.
  apply forallb_forall. intros b Hb. apply filter_In in Hb as [Hin Hlt].
  rewrite Hlt, andb_true_r. apply Z.leb_le.
  rewrite Forall_forall in Hs. apply Hs. by apply list_elem_of_In.
Qed.

Lemma ascii_encode_ignore_ascii (s : pystr) :
  Forall (fun c => 0 <= c) s →
  Forall (fun c => 0 <= c < 0x80) (List.filter (fun c => c <? 0x80) s).
Proof.
  induction 1 as [|c s Hc _ IH]; [constructor |]. cbn [List.filter].
  destruct (Z.ltb_spec c 0x80); [constructor; [lia | done] | done].
Qed.

(** C7.  [sanitize_text] always returns a string and never raises: the
    empty string for a value that is not a string, and for a string its
    UTF-8 round trip, in which the characters that cannot be encoded (lone
    surrogates) are replaced.  Where the round trip fails, the result is the
    string stripped to its ASCII characters, in their order; with this
    fallback the sanitizer returns on every sequence of code points, also
    on one beyond U+10FFFF, on which the round trip does fail. *)
Theorem sanitize_text_total :
  (∀ text, (∀ s, text ≠ PStr s) → sanitize_text text = Ok []) ∧
  (∀ s, wf_str s →
        utf8_decode (utf8_encode_replace s) = Ok (replace_surrogates s) ∧
        sanitize_text (PStr s) = Ok (replace_surrogates s)) ∧
  (∀ s e, Forall (fun c => 0 <= c) s →
          utf8_decode (utf8_encode_replace s) = Raise e →
          sanitize_text (PStr s) = Ok (List.filter (fun c => c <? 0x80) s) ∧
          Forall (fun c => 0 <= c < 0x80) (List.filter (fun c => c <? 0x80) s)) ∧
  (∀ text, (∀ s, text = PStr s → Forall (fun c => 0 <= c) s) →
           ∃ out, sanitize_text text = Ok out).
Proof.
  split; [| split; [| split]].
  - intros text Hno. destruct text; try done. by destruct (Hno s).
  - intros s Hwf. split; [by apply utf8_round_trip |].
    cbn [sanitize_text]. by rewrite utf8_round_trip.
  - intros s e Hpos Hfail. cbn [sanitize_text]. rewrite Hfail.
    split; [by apply ascii_fallback_ok | by apply ascii_encode_ignore_ascii].
  - intros text Hpos. destruct text; try (by eexists).
    cbn [sanitize_text].
    destruct (utf8_decode (utf8_encode_replace s)) as [out|e]; [by eexists |].
    eexists. apply ascii_fallback_ok. by apply Hpos.
Qed.

(** The fallback at work: U+110000 is beyond the last code point, the
    round trip fails, and the ASCII characters remain. *)
Lemma sanitize_text_total_witness :
  Forall (fun c => 0 <= c) [0x41; 0x110000; 0xE9; 0x42] ∧
  utf8_decode (utf8_encode_replace [0x41; 0x110000; 0xE9; 0x42])
  = Raise decode_error ∧
  sanitize_text (PStr [0x41; 0x110000; 0xE9; 0x42]) = Ok [0x41; 0x42].
Proof.
  assert (Hpos : Forall (fun c => 0 <= c) [0x41; 0x110000; 0xE9; 0x42])
    by (repeat constructor; lia).
  split; [exact Hpos |]. split; [reflexivity |].
  destruct sanitize_text_total as (_ & _ & Hfallback & _).
  exact (proj1 (Hfallback [0x41; 0x110000; 0xE9; 0x42] decode_error Hpos eq_refl)).
Defined.

(** ** The submission pipeline *)

Section Pipeline.
Context `{rt : PyRuntime} {features : Type} (ml : MLComponents features).

Lemma first_category_in (items : list (pystr * list pystr)) (text c : pystr) :
  first_category items text = Some c → c ∈ map fst items.
Proof.
  induction items as [|[c0 k0] items IH]; simpl; [done |].
  destruct (any_keyword k0 text).
  - intros [= ->]. left.
  - intros Hc. right. by apply IH.
Qed.

Lemma manual_category_in (text c : pystr) :
  manual_category_detection text = Some c → c ∈ CATEGORIES.
Proof.
  unfold manual_category_detection. intros Hc.
  rewrite <- CATEGORY_KEYWORDS_names. by eapply first_category_in.
Qed.

Lemma CATEGORIES_nonempty (c : pystr) : c ∈ CATEGORIES → c ≠ [].
Proof.
  intros Hin ->. apply str_in_spec in Hin. by vm_compute in Hin.
Qed.

(** The truth test [if manual_category:] is the test for a match. *)
Lemma manual_category_truthy (text c : pystr) :
  manual_category_detection text = Some c →
  truthy_opt (Some c) = true ∧ default [] (Some c) = c.
Proof.
  intros Hc. apply manual_category_in, CATEGORIES_nonempty in Hc.
  by destruct c.
Qed.

(** What one run of the handler does, stage by stage. *)
Lemma submit_complaint_with_run
    (classifier : pystr → M (option pystr * pystr))
    (request_json : pyval) (utcnow : Z) (w : world) (raw sanitized : pystr) :
  read_complaint request_json = Ok raw →
  sanitize_text (PStr raw) = Ok sanitized →
  submit_complaint_with classifier request_json utcnow w =
    let w1 := logged w [CallSanitize (PStr raw)] in
    let text := str_lower sanitized in
    if (length text <? 10)%nat then (Ok too_short, w1)
    else
      match classifier text w1 with
      | (Ok decision, w2) =>
          (Ok (submitted (fst decision) (snd decision)),
           stored w2 (make_entry text (fst decision) (snd decision) utcnow))
      | (Raise e, w2) => (Ok (server_error e), w2)
      end.
Proof.
  intros Hread Hsan.
  unfold submit_complaint_with, try_except, bind, lift, call_sanitize, bind,
    record_call, lift.
  rewrite Hread. cbn [collection calls]. rewrite Hsan. cbn zeta.
  destruct (length (str_lower sanitized) <? 10)%nat; [done |].
  fold (logged w [CallSanitize (PStr raw)]).
  by destruct (classifier _ _) as [[decision|e] w2].
Qed.

Lemma classify_match (text c : pystr) (w : world) :
  manual_category_detection text = Some c →
  classify ml text w = (Ok (Some c, c), logged w [CallManual text]).
Proof.
  intros Hc. destruct (manual_category_truthy _ _ Hc) as [Ht Hd].
  unfold classify, bind, call_manual, bind, record_call, ret.
  rewrite Hc, Ht. by rewrite Hd.
Qed.

Lemma classify_degraded (text : pystr) (w : world) :
  manual_category_detection text = None → available ml = false →
  classify ml text w
  = (Ok (None, py "Other"), logged w [CallManual text; CallManual text]).
Proof.
  intros Hc Hav. unfold available in Hav.
  unfold classify, bind, call_manual, bind, record_call, ret, logged.
  rewrite Hc. cbn [truthy_opt collection calls].
  destruct (model ml), (tfidf_vectorizer ml), (label_encoder ml);
    try discriminate; rewrite ?Hc; cbn [or_else collection calls];
    by rewrite <- app_assoc.
Qed.

Lemma classify_model (text : pystr) (w : world) :
  manual_category_detection text = None → available ml = true →
  (∃ e, classify ml text w
        = (Raise e, logged w [CallManual text; CallModel text])) ∨
  (∃ label, classify ml text w
            = (Ok (None, validate_prediction label text),
               logged w [CallManual text; CallModel text])).
Proof.
  intros Hc Hav. unfold available in Hav.
  unfold classify, bind, call_manual, bind, record_call, ret, logged.
  rewrite Hc. cbn [truthy_opt collection calls].
  destruct (model ml) as [predict|], (tfidf_vectorizer ml) as [vectorizer|],
    (label_encoder ml) as [decode|]; try discriminate.
  unfold call_model, bind, record_call, lift, ret. cbn [collection calls].
  rewrite <- app_assoc. cbn [app].
  destruct (vectorizer text) as [tfidf|e]; [| left; by exists e].
  destruct (predict tfidf) as [index|e]; [| left; by exists e].
  destruct (decode index) as [label|e]; [| left; by exists e].
  right. by exists label.
Qed.

Lemma logged_logged (w : world) (evs1 evs2 : list event) :
  logged (logged w evs1) evs2 = logged w (evs1 ++ evs2).
Proof. unfold logged. cbn [collection calls]. by rewrite app_assoc. Qed.

(** The outcome of a submission that passes the length floor, branch by
    branch. *)
Lemma submit_complaint_cases (request_json : pyval) (utcnow : Z) (w : world)
    (raw sanitized : pystr) :
  read_complaint request_json = Ok raw →
  sanitize_text (PStr raw) = Ok sanitized →
  (10 ≤ length (str_lower sanitized))%nat →
  let text := str_lower sanitized in
  let run := submit_complaint ml request_json utcnow w in
  let sanitize := CallSanitize (PStr raw) in
  (∀ c, manual_category_detection text = Some c →
        run = (Ok (submitted (Some c) c),
               stored (logged w [sanitize; CallManual text])
                 (make_entry text (Some c) c utcnow))) ∧
  (manual_category_detection text = None → available ml = true →
   (∃ e, run = (Ok (server_error e),
                logged w [sanitize; CallManual text; CallModel text])) ∨
   (∃ label,
      run = (Ok (submitted None (validate_prediction label text)),
             stored (logged w [sanitize; CallManual text; CallModel text])
               (make_entry text None (validate_prediction label text)
                  utcnow)))) ∧
  (manual_category_detection text = None → available ml = false →
   run = (Ok (submitted None (py "Other")),
          stored (logged w [sanitize; CallManual text; CallManual text])
            (make_entry text None (py "Other") utcnow))).
Proof.
  intros Hread Hsan Hlen text run sanitize. subst run text sanitize.
  unfold submit_complaint.
  rewrite (submit_complaint_with_run _ _ _ _ _ _ Hread Hsan). cbn zeta.
  rewrite (proj2 (Nat.ltb_ge _ _) Hlen). repeat split.
  - intros c Hc. rewrite (classify_match _ _ _ Hc).
    by rewrite logged_logged.
  - intros Hc Hav.
    destruct (classify_model (str_lower sanitized)
                (logged w [CallSanitize (PStr raw)]) Hc Hav)
      as [[e ->] | [label ->]]; rewrite logged_logged.
    + left. by exists e.
    + right. by exists label.
  - intros Hc Hav. rewrite (classify_degraded _ _ Hc Hav).
    by rewrite logged_logged.
Qed.

(** C4.  When the sanitized, lowercased text has fewer than 10 characters
    the submission is answered with the validation error (status 400)
    after the sanitizer alone was called: neither classifier stage runs
    and the collection is left as it was.  With 10 characters or more the
    answer is never the length rejection. *)
Theorem length_floor (request_json : pyval) (utcnow : Z) (w : world)
    (raw sanitized : pystr) :
  read_complaint request_json = Ok raw →
  sanitize_text (PStr raw) = Ok sanitized →
  let text := str_lower sanitized in
  let run := submit_complaint ml request_json utcnow w in
  ((length text < 10)%nat →
   run = (Ok too_short, logged w [CallSanitize (PStr raw)]) ∧
   collection (snd run) = collection w ∧
   snd too_short = 400) ∧
  ((10 ≤ length text)%nat →
   ∃ answer w', run = (Ok answer, w') ∧ snd answer ≠ 400).
Proof.
  intros Hread Hsan text run. subst run text. unfold submit_complaint.
  rewrite (submit_complaint_with_run _ _ _ _ _ _ Hread Hsan). cbn zeta.
  split.
  - intros Hlen. by rewrite (proj2 (Nat.ltb_lt _ _) Hlen).
  - intros Hlen. rewrite (proj2 (Nat.ltb_ge _ _) Hlen).
    destruct (classify ml _ _) as [[decision|e] w2]; by eexists _, _.
Qed.

(** C2.  For a submission that passes the length floor the category of
    the stored document is one of the six of [CATEGORIES] in each branch:
    the matched category after a keyword match, the validated label after
    a model prediction (when the model raises nothing is stored), and
    ["Other"] when there is neither match nor model. *)
Theorem stored_category_in_CATEGORIES (request_json : pyval) (utcnow : Z)
    (w : world) (raw sanitized : pystr) :
  read_complaint request_json = Ok raw →
  sanitize_text (PStr raw) = Ok sanitized →
  (10 ≤ length (str_lower sanitized))%nat →
  let text := str_lower sanitized in
  let run := submit_complaint ml request_json utcnow w in
  let id := fresh (dom (collection w)) in
  (∀ c, manual_category_detection text = Some c →
        ∃ doc, collection (snd run) = <[id := doc]> (collection w) ∧
               category doc = c ∧ c ∈ CATEGORIES) ∧
  (manual_category_detection text = None → available ml = true →
   (∃ e, fst run = Ok (server_error e) ∧
         collection (snd run) = collection w) ∨
   (∃ label doc,
      collection (snd run) = <[id := doc]> (collection w) ∧
      category doc = validate_prediction label text ∧
      category doc ∈ CATEGORIES)) ∧
  (manual_category_detection text = None → available ml = false →
   ∃ doc, collection (snd run) = <[id := doc]> (collection w) ∧
          category doc = py "Other" ∧ py "Other" ∈ CATEGORIES) ∧
  (∀ i doc, collection (snd run) !! i = Some doc →
            collection w !! i = Some doc ∨ category doc ∈ CATEGORIES).
Proof.
  intros Hread Hsan Hlen text run id.
  destruct (submit_complaint_cases _ utcnow w _ _ Hread Hsan Hlen)
    as (Hmatch & Hmodel & Hdegraded).
  fold text in Hmatch, Hmodel, Hdegraded. fold run in Hmatch, Hmodel, Hdegraded.
  assert (Hbranch :
    (∀ c, manual_category_detection text = Some c →
          ∃ doc, collection (snd run) = <[id := doc]> (collection w) ∧
                 category doc = c ∧ c ∈ CATEGORIES) ∧
    (manual_category_detection text = None → available ml = true →
     (∃ e, fst run = Ok (server_error e) ∧
           collection (snd run) = collection w) ∨
     (∃ label doc,
        collection (snd run) = <[id := doc]> (collection w) ∧
        category doc = validate_prediction label text ∧
        category doc ∈ CATEGORIES)) ∧
    (manual_category_detection text = None → available ml = false →
     ∃ doc, collection (snd run) = <[id := doc]> (collection w) ∧
            category doc = py "Other" ∧ py "Other" ∈ CATEGORIES)).
  { repeat split.
    - intros c Hc. rewrite (Hmatch c Hc). eexists. repeat split.
      by eapply manual_category_in.
    - intros Hc Hav. destruct (Hmodel Hc Hav) as [[e ->] | [label ->]].
      + left. by exists e.
      + right. eexists label, _. repeat split. apply validate_prediction_in.
    - intros Hc Hav. rewrite (Hdegraded Hc Hav). eexists. repeat split.
      apply Other_in_CATEGORIES. }
  destruct Hbranch as (Hb1 & Hb2 & Hb3). repeat split; [done | done | done |].
  intros i doc Hdoc.
  assert (Hins : ∀ new, collection (snd run) = <[id := new]> (collection w) →
                        category new ∈ CATEGORIES →
                        collection w !! i = Some doc ∨ category doc ∈ CATEGORIES).
  { intros new Hcol Hcat. rewrite Hcol in Hdoc.
    destruct (decide (id = i)) as [<- | Hne].
    - rewrite lookup_insert_eq in Hdoc. injection Hdoc as <-. by right.
    - rewrite lookup_insert_ne in Hdoc by done. by left. }
  destruct (manual_category_detection text) as [c|] eqn:Hc.
  - destruct (Hb1 c eq_refl) as (new & Hcol & Hcat & Hin).
    apply (Hins new Hcol). by rewrite Hcat.
  - destruct (available ml) eqn:Hav.
    + destruct (Hb2 eq_refl eq_refl)
        as [(e & _ & Hcol) | (label & new & Hcol & _ & Hin)].
      * left. by rewrite <- Hcol.
      * by apply (Hins new Hcol).
    + destruct (Hb3 eq_refl eq_refl) as (new & Hcol & Hcat & Hin).
      apply (Hins new Hcol). by rewrite Hcat.
Qed.

(** C3 (as amended).  The stored [prediction_source] is ["manual"] exactly
    when the keyword stage matched and ["model"] in every other case: when
    the statistical model produced the category, and also when there is
    neither match nor model, where the category is the default ["Other"]
    and no model is called. *)
Theorem prediction_source_tag (request_json : pyval) (utcnow : Z) (w : world)
    (raw sanitized : pystr) :
  read_complaint request_json = Ok raw →
  sanitize_text (PStr raw) = Ok sanitized →
  (10 ≤ length (str_lower sanitized))%nat →
  let text := str_lower sanitized in
  let run := submit_complaint ml request_json utcnow w in
  let sanitize := CallSanitize (PStr raw) in
  (∀ c, manual_category_detection text = Some c →
        ∃ doc, snd run = stored (logged w [sanitize; CallManual text]) doc ∧
               prediction_source doc = py "manual") ∧
  (manual_category_detection text = None → available ml = true →
   (∃ e, run = (Ok (server_error e),
                logged w [sanitize; CallManual text; CallModel text])) ∨
   (∃ doc,
      snd run
      = stored (logged w [sanitize; CallManual text; CallModel text]) doc ∧
      prediction_source doc = py "model")) ∧
  (manual_category_detection text = None → available ml = false →
   ∃ doc,
     snd run
     = stored (logged w [sanitize; CallManual text; CallManual text]) doc ∧
     prediction_source doc = py "model" ∧ category doc = py "Other") ∧
  py "manual" ≠ py "model".
Proof.
  intros Hread Hsan Hlen text run sanitize.
  destruct (submit_complaint_cases _ utcnow w _ _ Hread Hsan Hlen)
    as (Hmatch & Hmodel & Hdegraded).
  repeat split; [| | | done].
  - intros c Hc. subst run. rewrite (Hmatch c Hc). eexists. split; [done |].
    cbn [make_entry prediction_source].
    by rewrite (proj1 (manual_category_truthy _ _ Hc)).
  - intros Hc Hav. subst run.
    destruct (Hmodel Hc Hav) as [[e ->] | [label ->]].
    + left. by exists e.
    + right. by eexists.
  - intros Hc Hav. subst run. rewrite (Hdegraded Hc Hav). by eexists.
Qed.

(** Both forms of the degraded branch give the same decision and leave the
    collection alone. *)
Lemma classify_direct_agrees (text : pystr) (w : world) :
  fst (classify ml text w) = fst (classify_direct ml text w) ∧
  collection (snd (classify ml text w)) = collection w ∧
  collection (snd (classify_direct ml text w)) = collection w.
Proof.
  unfold classify, classify_direct, bind, call_manual, bind, record_call, ret.
  destruct (manual_category_detection text) as [[|c s]|] eqn:Hc;
    cbn [truthy_opt collection calls]; [| done |];
    (destruct (model ml) as [predict|], (tfidf_vectorizer ml) as [vectorizer|],
       (label_encoder ml) as [decode|]; rewrite ?Hc; try done;
     unfold call_model, bind, record_call, lift, ret; cbn [collection calls];
     destruct (vectorizer text) as [tfidf|e]; [| done];
     destruct (predict tfidf) as [index|e]; [| done];
     by destruct (decode index) as [label|e]).
Qed.

Lemma submit_complaint_with_observable
    (classifier1 classifier2 : pystr → M (option pystr * pystr))
    (request_json : pyval) (utcnow : Z) (w : world) :
  (∀ text w1,
      fst (classifier1 text w1) = fst (classifier2 text w1) ∧
      collection (snd (classifier1 text w1))
      = collection (snd (classifier2 text w1))) →
  observable (submit_complaint_with classifier1 request_json utcnow w)
  = observable (submit_complaint_with classifier2 request_json utcnow w).
Proof.
  intros Hagree.
  unfold submit_complaint_with, try_except, bind, lift, call_sanitize, bind,
    record_call, lift.
  destruct (read_complaint request_json) as [raw|e]; [| done].
  cbn [collection calls].
  destruct (sanitize_text (PStr raw)) as [sanitized|e]; [| done].
  destruct (length (str_lower sanitized) <? 10)%nat; [done |].
  match goal with
  | |- context [classifier1 ?t ?w1] =>
      destruct (Hagree t w1) as [Hfst Hcol];
      destruct (classifier1 t w1) as [[d1|e1] w2];
      destruct (classifier2 t w1) as [[d2|e2] w2']
  end; cbn [fst snd] in Hfst, Hcol; try discriminate.
  - injection Hfst as ->. unfold observable, insert_one, ret.
    cbn [fst snd collection]. by rewrite Hcol.
  - injection Hfst as ->. unfold observable, ret. cbn [fst snd].
    by rewrite Hcol.
Qed.

(** C5.  With no keyword match and no model, the second keyword pass
    finds what the first found, nothing: the category is ["Other"], and
    the handler answers and stores exactly what it would with the branch
    defaulting to ["Other"] directly. *)
Theorem degraded_recheck_is_noop (request_json : pyval) (utcnow : Z)
    (w : world) :
  (∀ text w1,
      manual_category_detection text = None → available ml = false →
      or_else (manual_category_detection text) (py "Other") = py "Other" ∧
      classify ml text w1
      = (Ok (None, py "Other"),
         logged w1 [CallManual text; CallManual text]) ∧
      classify_direct ml text w1
      = (Ok (None, py "Other"), logged w1 [CallManual text])) ∧
  observable (submit_complaint ml request_json utcnow w)
  = observable (submit_complaint_direct ml request_json utcnow w).
Proof.
  split.
  - intros text w1 Hc Hav. split; [by rewrite Hc |].
    split; [by apply classify_degraded |].
    unfold available in Hav.
    unfold classify_direct, bind, call_manual, bind, record_call, ret, logged.
    rewrite Hc. cbn [truthy_opt collection calls].
    by destruct (model ml), (tfidf_vectorizer ml), (label_encoder ml).
  - apply submit_complaint_with_observable. intros text w1.
    destruct (classify_direct_agrees text w1) as (Hfst & Hc1 & Hc2).
    split; [done | by rewrite Hc1, Hc2].
Qed.

Lemma classify_calls (text : pystr) (w : world) :
  ∃ evs, calls (snd (classify ml text w)) = calls w ++ evs ∧
         ∀ v, CallSanitize v ∉ evs.
Proof.
  assert (Hno : ∀ v evs,
            Forall (fun ev => ev = CallManual text ∨ ev = CallModel text) evs →
            CallSanitize v ∉ evs).
  { intros v evs Hall Hin. rewrite Forall_forall in Hall.
    by destruct (Hall _ Hin). }
  unfold classify, bind, call_manual, bind, record_call, ret.
  destruct (manual_category_detection text) as [[|c s]|];
    cbn [truthy_opt collection calls snd].
  2: { eexists. split; [done |]. intros v. apply Hno.
       repeat (constructor; [auto |]). constructor. }
  all: destruct (model ml) as [predict|], (tfidf_vectorizer ml) as [vectorizer|],
         (label_encoder ml) as [decode|];
       unfold call_model, bind, record_call, lift, ret;
       cbn [collection calls snd];
       try (destruct (vectorizer text) as [tfidf|e]; cbn [snd calls];
            [destruct (predict tfidf) as [index|e]; cbn [snd calls];
             [destruct (decode index) as [label|e]; cbn [snd calls] |] |]);
       rewrite <- app_assoc; (eexists; split; [done |]);
       intros v; apply Hno; repeat (constructor; [auto |]); constructor.
Qed.

Lemma lstrip_spec (s : pystr) :
  ∃ pre, s = pre ++ lstrip s ∧
         Forall (fun c => str_isspace c = true) pre ∧
         ∀ c rest, lstrip s = c :: rest → str_isspace c = false.
Proof.
  induction s as [|c s (pre & Hs & Hpre & Hhead)].
  - exists []. repeat split; [constructor | done].
  - cbn [lstrip]. destruct (str_isspace c) eqn:Hc.
    + exists (c :: pre). split; [by rewrite Hs at 1 |].
      split; [by constructor | done].
    + exists []. split; [done |]. split; [constructor |].
      by intros c' rest [= <- _].
Qed.

(** [strip] removes whitespace, and only whitespace, from both ends. *)
Lemma strip_spec (s : pystr) :
  ∃ pre post,
    s = pre ++ strip s ++ post ∧
    Forall (fun c => str_isspace c = true) pre ∧
    Forall (fun c => str_isspace c = true) post ∧
    (∀ c rest, strip s = c :: rest → str_isspace c = false) ∧
    (∀ c rest, rev (strip s) = c :: rest → str_isspace c = false).
Proof.
  unfold strip.
  destruct (lstrip_spec s) as (pre & Hs & Hpre & Hhead).
  destruct (lstrip_spec (rev (lstrip s))) as (q & Hq & Hqs & Hlast).
  set (u := lstrip (rev (lstrip s))) in *.
  assert (Ht : lstrip s = rev u ++ rev q).
  { rewrite <- (rev_involutive (lstrip s)), Hq. apply rev_app_distr. }
  exists pre, (rev q). split; [by rewrite <- Ht |]. split; [done |].
  split; [| split].
  - apply Forall_forall. intros c Hin. rewrite Forall_forall in Hqs.
    apply Hqs. apply list_elem_of_In. apply list_elem_of_In in Hin.
    by rewrite <- in_rev in Hin.
  - intros c rest Hu. apply (Hhead c (rest ++ rev q)). by rewrite Ht, Hu.
  - intros c rest. rewrite rev_involutive. apply Hlast.
Qed.

(** C10 (as amended).  The handler sanitizes [str(value).strip()], a string
    whatever the JSON value under ["complaint"] is: the one call of the
    sanitizer in a run has a string argument, a value is handled exactly as
    the string [str(value)] is, and the answer is the length rejection when
    the sanitized, lowercased form of that text has fewer than 10
    characters and the classification of that form otherwise; no value is
    rejected for its type.  [str] prints [None], [True], [False], the
    decimal digits of an integer and the bracketed items of a list, and
    [strip] takes whitespace, and nothing else, from both ends. *)
Theorem submit_coerces_value_to_text (d : list (pystr * pyval)) (utcnow : Z)
    (w : world) :
  let value := default (PStr []) (dict_lookup d (py "complaint")) in
  let raw := strip (py_str value) in
  let run := submit_complaint ml (PDict d) utcnow w in
  read_complaint (PDict d) = Ok raw ∧
  (∃ evs, calls (snd run) = calls w ++ CallSanitize (PStr raw) :: evs ∧
          ∀ v, CallSanitize v ∉ evs) ∧
  run = submit_complaint ml (PDict [(py "complaint", PStr (py_str value))])
          utcnow w ∧
  (∀ sanitized,
      sanitize_text (PStr raw) = Ok sanitized →
      let text := str_lower sanitized in
      let w1 := logged w [CallSanitize (PStr raw)] in
      run = if (length text <? 10)%nat then (Ok too_short, w1)
            else
              match classify ml text w1 with
              | (Ok decision, w2) =>
                  (Ok (submitted (fst decision) (snd decision)),
                   stored w2
                     (make_entry text (fst decision) (snd decision) utcnow))
              | (Raise e, w2) => (Ok (server_error e), w2)
              end) ∧
  (∃ pre post,
      py_str value = pre ++ raw ++ post ∧
      Forall (fun c => str_isspace c = true) pre ∧
      Forall (fun c => str_isspace c = true) post ∧
      (∀ c rest, raw = c :: rest → str_isspace c = false) ∧
      (∀ c rest, rev raw = c :: rest → str_isspace c = false)) ∧
  (py_str PNone = py "None" ∧
   py_str (PBool true) = py "True" ∧ py_str (PBool false) = py "False" ∧
   (∀ z, py_str (PInt z) = py (NilZero.string_of_int (Z.to_int z))) ∧
   py_str (PInt 12345678901) = py "12345678901" ∧
   py_str (PInt (-7)) = py "-7" ∧
   (∀ text nonzero, py_str (PFloat text nonzero) = text) ∧
   (∀ s, py_str (PStr s) = s) ∧
   (∀ l, py_str (PList l) = py "[" ++ join (py ", ") (map py_repr l) ++ py "]") ∧
   py_str (PList [PInt 1; PNone; PBool true]) = py "[1, None, True]").
Proof.
  intros value raw run.
  assert (Hread : read_complaint (PDict d) = Ok raw).
  { unfold read_complaint. by destruct d. }
  split; [done |]. split; [| split; [| split; [| split]]].
  - subst run. unfold submit_complaint, submit_complaint_with, try_except,
      bind, lift, call_sanitize, bind, record_call, lift.
    rewrite Hread. cbn [collection calls].
    destruct (sanitize_text (PStr raw)) as [sanitized|e].
    2: { exists []. split; [done |]. intros v Hin. by apply elem_of_nil in Hin. }
    destruct (length (str_lower sanitized) <? 10)%nat.
    { exists []. split; [done |]. intros v Hin. by apply elem_of_nil in Hin. }
    match goal with
    | |- context [classify ml ?t ?w1] =>
        destruct (classify_calls t w1) as (evs & Hcalls & Hevs);
        destruct (classify ml t w1) as [[decision|e] w2]
    end; cbn [snd calls collection] in Hcalls |- *.
    + unfold insert_one, ret. cbn [snd calls]. rewrite Hcalls.
      rewrite <- !app_assoc. eexists. split; [done |].
      intros v Hin. apply elem_of_app in Hin as [Hin | Hin].
      * by apply (Hevs v).
      * apply list_elem_of_singleton in Hin. discriminate.
    + unfold ret. cbn [snd calls]. rewrite Hcalls. rewrite <- app_assoc.
      by eexists.
  - subst run. unfold submit_complaint, submit_complaint_with.
    rewrite Hread.
    replace (read_complaint (PDict [(py "complaint", PStr (py_str value))]))
      with (Ok (A := pystr) raw); [done |].
    unfold read_complaint. cbn [truthy py_get dict_lookup].
    unfold str_eqb. by rewrite bool_decide_eq_true_2.
  - intros sanitized Hsan text w1. subst run. unfold submit_complaint.
    by rewrite (submit_complaint_with_run _ _ _ _ _ _ Hread Hsan).
  - apply strip_spec.
  - repeat split.
Qed.

End Pipeline.

(** ** Votes *)

Section Votes.
Context `{rt : PyRuntime}.

Lemma alter_inc_votes_Some (m : gmap oid complaint_entry) (id : oid)
    (doc : complaint_entry) :
  m !! id = Some doc → alter inc_votes id m = <[id := inc_votes doc]> m.
Proof.
  intros Hdoc. apply map_eq. intros j. destruct (decide (id = j)) as [<- | Hne].
  - by rewrite lookup_alter_eq, lookup_insert_eq, Hdoc.
  - by rewrite lookup_alter_ne, lookup_insert_ne.
Qed.

Lemma alter_inc_votes_None (m : gmap oid complaint_entry) (id : oid) :
  m !! id = None → alter inc_votes id m = m.
Proof.
  intros Hdoc. apply map_eq. intros j. destruct (decide (id = j)) as [<- | Hne].
  - by rewrite lookup_alter_eq, Hdoc.
  - by rewrite lookup_alter_ne.
Qed.

(** A vote whose id is accepted by [ObjectId]. *)
Lemma vote_run (request_json complaint_id : pyval) (id : oid) (w : world) :
  py_get request_json (py "id") PNone = Ok complaint_id →
  truthy complaint_id = true →
  ObjectId complaint_id = Ok id →
  vote request_json w
  = (Ok (match collection w !! id with
         | Some _ => vote_counted
         | None => not_found
         end),
     {| collection := alter inc_votes id (collection w);
        calls := calls w ++ [CallUpdate id] |}).
Proof.
  intros Hget Htrue Hid.
  unfold vote, try_except, bind, lift, update_one_inc_votes, ret.
  rewrite Hget, Htrue. cbn [negb]. rewrite Hid.
  by destruct (collection w !! id).
Qed.

Lemma vote_times_votes (n : nat) (request_json complaint_id : pyval)
    (id : oid) (w : world) (doc : complaint_entry) :
  py_get request_json (py "id") PNone = Ok complaint_id →
  truthy complaint_id = true →
  ObjectId complaint_id = Ok id →
  collection w !! id = Some doc →
  collection (vote_times n request_json w)
  = <[id := with_votes doc (votes doc + Z.of_nat n)]> (collection w).
Proof.
  intros Hget Htrue Hid. revert w doc.
  induction n as [|n IH]; intros w doc Hdoc.
  - cbn [vote_times]. rewrite Z.add_0_r. symmetry. apply insert_id.
    rewrite Hdoc. by destruct doc.
  - cbn [vote_times]. rewrite (vote_run _ _ _ _ Hget Htrue Hid). cbn [snd].
    rewrite (IH _ (inc_votes doc)); cbn [collection].
    + rewrite (alter_inc_votes_Some _ _ _ Hdoc), insert_insert_eq.
      f_equal. unfold with_votes, inc_votes. cbn. f_equal. lia.
    + by rewrite (alter_inc_votes_Some _ _ _ Hdoc), lookup_insert_eq.
Qed.

(** C6 (as amended).  A vote whose body is a JSON object with, under
    ["id"], a value that is true in a truth test and that [ObjectId]
    accepts adds exactly 1 to [votes] of the document with that id and
    reports success, every other field and every other document staying as
    it was; it reports not-found and alters nothing when there is no such
    document; after [n] votes on the id of a document its [votes] is the
    initial value plus [n].  A vote whose body is an object with the id
    missing or false in a truth test ([null], [""], [0], [false], [[]],
    [{}]) is answered [400]; a vote whose body is not an object, or whose
    id is true in a truth test and refused by [ObjectId], is answered [500]
    with the exception's message; none of these alters a document. *)
Theorem vote_increments_by_one (request_json : pyval) (w : world) :
  let run := vote request_json w in
  ((∀ d, request_json ≠ PDict d) → ∃ e, run = (Ok (vote_error e), w)) ∧
  (∀ d, request_json = PDict d →
     let complaint_id := default PNone (dict_lookup d (py "id")) in
     (truthy complaint_id = false → run = (Ok missing_id, w)) ∧
     (truthy complaint_id = true →
      ∀ e, ObjectId complaint_id = Raise e → run = (Ok (vote_error e), w)) ∧
     (truthy complaint_id = true →
      ∀ id, ObjectId complaint_id = Ok id →
        (∀ doc, collection w !! id = Some doc →
           fst run = Ok vote_counted ∧
           collection (snd run)
           = <[id := with_votes doc (votes doc + 1)]> (collection w) ∧
           ∀ n, collection (vote_times n request_json w)
                = <[id := with_votes doc (votes doc + Z.of_nat n)]> (collection w)) ∧
        (collection w !! id = None →
           fst run = Ok not_found ∧ collection (snd run) = collection w))) ∧
  snd vote_counted = 200 ∧ snd missing_id = 400 ∧ snd not_found = 404 ∧
  (∀ e, snd (vote_error e) = 500).
Proof.
  intros run. subst run. split; [| split; [| done]].
  - intros Hobj. unfold vote, try_except, bind, lift, ret.
    destruct request_json; try (by eexists); by destruct (Hobj d).
  - intros d -> complaint_id.
    assert (Hget : py_get (PDict d) (py "id") PNone = Ok complaint_id) by done.
    split; [| split].
    + intros Hfalse. unfold vote, try_except, bind, lift, ret.
      by rewrite Hget, Hfalse.
    + intros Htrue e Hid. unfold vote, try_except, bind, lift, ret.
      by rewrite Hget, Htrue, Hid.
    + intros Htrue id Hid. rewrite (vote_run _ _ _ _ Hget Htrue Hid).
      cbn [fst snd collection]. split.
      * intros doc Hdoc. rewrite Hdoc. repeat split.
        -- by rewrite (alter_inc_votes_Some _ _ _ Hdoc).
        -- intros n. by eapply vote_times_votes.
      * intros Hnone. rewrite Hnone. split; [done |].
        by apply alter_inc_votes_None.
Qed.

End Votes.

(** * The handlers on concrete requests

    The runs below use [ascii_runtime]; every request is ASCII text. *)

(** The examples of the specification's section 8. *)
Example water_leak_is_manual_Water_Issues :
  fst (submit_complaint (rt := ascii_runtime) no_model
         (complaint_request "there is a water leak near my house") 0
         empty_world)
  = Ok (submitted (Some (py "Water Issues")) (py "Water Issues")).
Proof. by vm_compute. Qed.

Example noise_is_manual_Other :
  fst (submit_complaint (rt := ascii_runtime) no_model
         (complaint_request
            "the neighborhood cat keeps making weird noise at night") 0
         empty_world)
  = Ok (submitted (Some (py "Other")) (py "Other")).
Proof. by vm_compute. Qed.

Example road_wins_over_drainage :
  manual_category_detection (rt := ascii_runtime)
    (py "road flooded due to drainage blockage")
  = Some (py "Road Issues").
Proof. by vm_compute. Qed.

Example water_wins_over_road :
  manual_category_detection (rt := ascii_runtime)
    (py "the ROAD is under Water")
  = Some (py "Water Issues").
Proof. by vm_compute. Qed.

(** The sanitizer keeps accented letters, the euro sign and an emoji, and
    replaces a lone surrogate by a question mark. *)
Example sanitize_replaces_lone_surrogate :
  utf8_encode_replace [0x41; 0xE9; 0x20AC; 0xD800; 0x1F600]
  = [0x41; 0xC3; 0xA9; 0xE2; 0x82; 0xAC; 0x3F; 0xF0; 0x9F; 0x98; 0x80] ∧
  sanitize_text (PStr [0x41; 0xE9; 0x20AC; 0xD800; 0x1F600])
  = Ok [0x41; 0xE9; 0x20AC; 0x3F; 0x1F600] ∧
  sanitize_text (PInt 7) = Ok [] ∧
  sanitize_text PNone = Ok [].
Proof. by vm_compute. Qed.

(** Values that are not strings under ["complaint"]. *)
Example null_complaint_is_too_short :
  fst (submit_complaint (rt := ascii_runtime) no_model
         (PDict [(py "complaint", PNone)]) 0 empty_world)
  = Ok too_short.
Proof. by vm_compute. Qed.

Example missing_complaint_is_too_short :
  fst (submit_complaint (rt := ascii_runtime) no_model (PDict []) 0 empty_world)
  = Ok too_short.
Proof. by vm_compute. Qed.

Example number_complaint_is_classified :
  fst (submit_complaint (rt := ascii_runtime) no_model
         (PDict [(py "complaint", PInt 12345678901)]) 0 empty_world)
  = Ok (submitted None (py "Other")).
Proof. by vm_compute. Qed.

Example list_complaint_is_classified :
  py_str (rt := ascii_runtime) (PList [PStr (py "tap"); PInt 1; PNone])
  = py "['tap', 1, None]" ∧
  fst (submit_complaint (rt := ascii_runtime) no_model
         (PDict [(py "complaint", PList [PStr (py "tap"); PInt 1; PNone])]) 0
         empty_world)
  = Ok (submitted (Some (py "Water Issues")) (py "Water Issues")).
Proof. by vm_compute. Qed.

(** A payload that is not an object has no [get]: the handler answers 500. *)
Example list_payload_is_server_error :
  fst (submit_complaint (rt := ascii_runtime) no_model (PList [PInt 1]) 0
         empty_world)
  = Ok (server_error (py "'list' object has no attribute 'get'")).
Proof. by vm_compute. Qed.

(** A label outside [CATEGORIES] from the model is stored as ["Other"]. *)
Example unknown_label_is_Other :
  fst (submit_complaint (rt := ascii_runtime) (constant_model (py "Bogus"))
         (complaint_request "   hello world!!  ") 0 empty_world)
  = Ok (submitted None (py "Other")).
Proof. by vm_compute. Qed.

(** Witness of [length_floor]: a three-character complaint. *)
Lemma length_floor_witness :
  read_complaint (rt := ascii_runtime) (complaint_request "xyz") = Ok (py "xyz") ∧
  sanitize_text (PStr (py "xyz")) = Ok (py "xyz") ∧
  submit_complaint (rt := ascii_runtime) no_model (complaint_request "xyz") 0
    empty_world
  = (Ok too_short, logged empty_world [CallSanitize (PStr (py "xyz"))]).
Proof.
  split; [reflexivity |]. split; [reflexivity |].
  destruct (length_floor (rt := ascii_runtime) no_model
              (complaint_request "xyz") 0 empty_world (py "xyz") (py "xyz")
              eq_refl eq_refl) as [Hshort _].
  apply Hshort. vm_compute. lia.
Defined.

(** Witness of [stored_category_in_CATEGORIES]: a complaint about a leak. *)
Lemma stored_category_in_CATEGORIES_witness :
  read_complaint (rt := ascii_runtime) (complaint_request "Water leak here")
  = Ok (py "Water leak here") ∧
  sanitize_text (PStr (py "Water leak here")) = Ok (py "Water leak here") ∧
  (10 ≤ length (str_lower (PyRuntime := ascii_runtime) (py "Water leak here")))%nat ∧
  ∀ i doc,
    collection (snd (submit_complaint (rt := ascii_runtime) no_model
                       (complaint_request "Water leak here") 0 empty_world))
      !! i = Some doc →
    collection empty_world !! i = Some doc ∨ category doc ∈ CATEGORIES.
Proof.
  split; [reflexivity |]. split; [reflexivity |].
  assert (Hlen : (10 ≤ length (str_lower (PyRuntime := ascii_runtime)
                                 (py "Water leak here")))%nat)
    by (vm_compute; lia).
  split; [exact Hlen |].
  apply (stored_category_in_CATEGORIES (rt := ascii_runtime) no_model
           (complaint_request "Water leak here") 0 empty_world
           (py "Water leak here") (py "Water leak here") eq_refl eq_refl Hlen).
Defined.

(** C3, counterexample.  With no model loaded and no keyword in the text,
    the stored document is tagged ["model"] although the category is the
    default and no model was called. *)
Lemma prediction_source_model_without_model :
  let run := submit_complaint (rt := ascii_runtime) no_model
               (complaint_request "hello world!!") 0 empty_world in
  let doc := make_entry (py "hello world!!") None (py "Other") 0 in
  manual_category_detection (rt := ascii_runtime) (py "hello world!!") = None ∧
  available no_model = false ∧
  fst run = Ok (submitted None (py "Other")) ∧
  collection (snd run) !! 0%N = Some doc ∧
  prediction_source doc = py "model" ∧
  prediction_source doc ≠ py "manual" ∧
  calls (snd run)
  = [CallSanitize (PStr (py "hello world!!")); CallManual (py "hello world!!");
     CallManual (py "hello world!!"); CallInsert doc].
Proof. by vm_compute. Qed.

(** Witness of [prediction_source_tag]: the same submission. *)
Lemma prediction_source_tag_witness :
  read_complaint (rt := ascii_runtime) (complaint_request "hello world!!")
  = Ok (py "hello world!!") ∧
  sanitize_text (PStr (py "hello world!!")) = Ok (py "hello world!!") ∧
  (10 ≤ length (str_lower (PyRuntime := ascii_runtime) (py "hello world!!")))%nat ∧
  ∃ doc,
    snd (submit_complaint (rt := ascii_runtime) no_model
           (complaint_request "hello world!!") 0 empty_world)
    = stored (logged empty_world
                [CallSanitize (PStr (py "hello world!!"));
                 CallManual (py "hello world!!");
                 CallManual (py "hello world!!")]) doc ∧
    prediction_source doc = py "model" ∧ category doc = py "Other".
Proof.
  split; [reflexivity |]. split; [reflexivity |].
  assert (Hlen : (10 ≤ length (str_lower (PyRuntime := ascii_runtime)
                                 (py "hello world!!")))%nat)
    by (vm_compute; lia).
  split; [exact Hlen |].
  destruct (prediction_source_tag (rt := ascii_runtime) no_model
              (complaint_request "hello world!!") 0 empty_world
              (py "hello world!!") (py "hello world!!") eq_refl eq_refl Hlen)
    as (_ & _ & Hdegraded & _).
  exact (Hdegraded eq_refl eq_refl).
Defined.

(** C10, counterexample.  The list with the one string of three capital I
    with dot above prints as 7 characters, fewer than 10; lowering makes
    two characters of each of the three, the normalized text has 10, and
    the complaint is not rejected but stored. *)
Lemma short_representation_is_stored :
  let value := PList [PStr [0x130; 0x130; 0x130]] in
  let run := submit_complaint (rt := dotted_runtime) no_model
               (PDict [(py "complaint", value)]) 0 empty_world in
  py_str (rt := dotted_runtime) value = [91; 39; 0x130; 0x130; 0x130; 39; 93] ∧
  (length (py_str (rt := dotted_runtime) value) < 10)%nat ∧
  fst run = Ok (submitted None (py "Other")) ∧
  fst run ≠ Ok too_short ∧
  complaint <$> collection (snd run) !! 0%N
  = Some [91; 39; 0x69; 0x307; 0x69; 0x307; 0x69; 0x307; 39; 93].
Proof.
  repeat split; try (by vm_compute). vm_compute. lia.
Qed.

(** C6, counterexample.  No document has the id [""] or the id ["xyz"], yet
    the answers are "Missing complaint ID" (400) and the [InvalidId] error
    (500), not "Complaint not found" (404). *)
Lemma vote_unknown_id_not_reported_not_found :
  collection empty_world = ∅ ∧
  vote (rt := ascii_runtime) (vote_request "") empty_world
  = (Ok missing_id, empty_world) ∧
  missing_id ≠ not_found ∧ snd missing_id = 400 ∧
  (∃ e, vote (rt := ascii_runtime) (vote_request "xyz") empty_world
        = (Ok (vote_error e), empty_world) ∧
        vote_error e ≠ not_found ∧ snd (vote_error e) = 500) ∧
  snd not_found = 404.
Proof.
  repeat split; try (by vm_compute).
  eexists. repeat split; by vm_compute.
Qed.

(** Witness of [vote_increments_by_one]: a vote on that document. *)
Lemma vote_increments_by_one_witness :
  collection one_document !! 1%N
  = Some (make_entry (py "water leak near my house")
            (Some (py "Water Issues")) (py "Water Issues") 0) ∧
  fst (vote (rt := ascii_runtime) (vote_request "000000000000000000000001")
         one_document)
  = Ok vote_counted ∧
  votes <$> collection (snd (vote (rt := ascii_runtime)
                               (vote_request "000000000000000000000001")
                               one_document)) !! 1%N
  = Some 1.
Proof.
  split; [reflexivity |].
  destruct (vote_increments_by_one (rt := ascii_runtime)
              (vote_request "000000000000000000000001") one_document)
    as (_ & Hobject & _).
  destruct (Hobject _ eq_refl) as (_ & _ & Hvote).
  destruct (Hvote eq_refl 1%N eq_refl) as [Hfound _].
  destruct (Hfound _ eq_refl) as (Hanswer & Hcollection & _).
  split; [exact Hanswer |].
  rewrite Hcollection. by rewrite lookup_insert_eq.
Defined.

(** Ids that are false in a truth test are answered as missing; a body
    that is not an object is answered as a server error. *)
Example vote_falsy_id_and_other_bodies :
  vote (rt := ascii_runtime) (PDict [(py "id", PInt 0)]) one_document
  = (Ok missing_id, one_document) ∧
  vote (rt := ascii_runtime) (PDict [(py "id", PBool false)]) one_document
  = (Ok missing_id, one_document) ∧
  vote (rt := ascii_runtime) (PDict []) one_document
  = (Ok missing_id, one_document) ∧
  vote (rt := ascii_runtime) PNone one_document
  = (Ok (vote_error (py "'NoneType' object has no attribute 'get'")),
     one_document) ∧
  vote (rt := ascii_runtime) (PList []) one_document
  = (Ok (vote_error (py "'list' object has no attribute 'get'")), one_document).
Proof. by vm_compute. Qed.

Example three_votes :
  votes <$> collection (vote_times (rt := ascii_runtime) 3
                          (vote_request "000000000000000000000001") one_document)
            !! 1%N
  = Some 3.
Proof. by vm_compute. Qed.

Example vote_on_unknown_id_is_not_found :
  vote (rt := ascii_runtime) (vote_request "0000000000000000000000ff") one_document
  = (Ok not_found, logged one_document [CallUpdate 255%N]).
Proof. by vm_compute. Qed.

(** * Further properties *)

(** ** The sanitizer on strings *)

Lemma replace_surrogates_encodable (s : pystr) :
  encodable s → replace_surrogates s = s.
Proof.
  unfold encodable, replace_surrogates.
  induction 1 as [|c s Hc _ IH]; [done |]. cbn [map]. by rewrite Hc, IH.
Qed.

Lemma replace_surrogates_output (s : pystr) :
  wf_str s →
  length (replace_surrogates s) = length s ∧
  wf_str (replace_surrogates s) ∧ encodable (replace_surrogates s).
Proof.
  unfold wf_str, encodable, replace_surrogates.
  induction 1 as [|c s Hc _ (IHlen & IHwf & IHenc)]; [by repeat constructor |].
  cbn [map length]. rewrite IHlen. split; [done |].
  destruct (is_surrogate c) eqn:Hs; split; constructor; done || lia.
Qed.

(** X1.  A string without lone surrogates comes out of the sanitizer as it
    went in. *)
Theorem sanitize_text_keeps_encodable (s : pystr) :
  wf_str s → encodable s → sanitize_text (PStr s) = Ok s.
Proof.
  intros Hwf Henc. cbn [sanitize_text]. rewrite utf8_round_trip by done.
  by rewrite replace_surrogates_encodable.
Qed.

Lemma sanitize_text_keeps_encodable_witness :
  wf_str [0x41; 0xE9; 0x20AC; 0x1F600] ∧ encodable [0x41; 0xE9; 0x20AC; 0x1F600] ∧
  sanitize_text (PStr [0x41; 0xE9; 0x20AC; 0x1F600])
  = Ok [0x41; 0xE9; 0x20AC; 0x1F600].
Proof.
  assert (Hwf : wf_str [0x41; 0xE9; 0x20AC; 0x1F600])
    by (repeat constructor; lia).
  assert (Henc : encodable [0x41; 0xE9; 0x20AC; 0x1F600])
    by (repeat constructor).
  split; [exact Hwf |]. split; [exact Henc |].
  exact (sanitize_text_keeps_encodable _ Hwf Henc).
Defined.

(** X2.  The sanitizer keeps the number of characters, its output has no
    lone surrogate, and sanitizing the output again changes nothing. *)
Theorem sanitize_text_output (s : pystr) :
  wf_str s →
  ∃ out, sanitize_text (PStr s) = Ok out ∧
         length out = length s ∧ wf_str out ∧ encodable out ∧
         sanitize_text (PStr out) = Ok out.
Proof.
  intros Hwf.
  destruct (replace_surrogates_output s Hwf) as (Hlen & Hwf' & Henc).
  exists (replace_surrogates s). cbn [sanitize_text].
  rewrite !utf8_round_trip by done.
  by rewrite (replace_surrogates_encodable _ Henc).
Qed.

Lemma sanitize_text_output_witness :
  wf_str [0x62; 0xDC80; 0x61] ∧
  ∃ out, sanitize_text (PStr [0x62; 0xDC80; 0x61]) = Ok out ∧
         length out = length [0x62; 0xDC80; 0x61] ∧ wf_str out ∧ encodable out ∧
         sanitize_text (PStr out) = Ok out.
Proof.
  assert (Hwf : wf_str [0x62; 0xDC80; 0x61]) by (repeat constructor; lia).
  split; [exact Hwf |]. exact (sanitize_text_output _ Hwf).
Defined.

(** ** The keyword classifier under extension of the text *)

Lemma Substring_trans (a b c : pystr) :
  Substring a b → Substring b c → Substring a c.
Proof.
  intros (pre1 & post1 & ->) (pre2 & post2 & ->).
  exists (pre2 ++ pre1), (post1 ++ post2). by rewrite <- !app_assoc.
Qed.

Lemma Hits_extension (keywords : list pystr) (text text' : pystr) :
  Substring text text' → Hits keywords text → Hits keywords text'.
Proof.
  intros Hsub (kw & Hin & Hkw). exists kw. split; [done |].
  by eapply Substring_trans.
Qed.

Lemma first_category_extension (items : list (pystr * list pystr))
    (text text' c : pystr) (i : nat) :
  Substring text text' → FirstHit items text i c →
  ∃ j c', (j ≤ i)%nat ∧ FirstHit items text' j c' ∧
          first_category items text' = Some c'.
Proof.
  intros Hsub (ki & Hi & Hhit & _).
  destruct (first_category items text') as [c'|] eqn:Hfc.
  - pose proof Hfc as Hfirst. apply first_category_Some in Hfirst as [j Hj].
    exists j, c'. split; [| done].
    destruct Hj as (kj & _ & _ & Hmin).
    destruct (Nat.le_gt_cases j i) as [|Hgt]; [done |].
    exfalso. apply (Hmin i c ki Hgt Hi). by eapply Hits_extension.
  - exfalso. rewrite first_category_None in Hfc.
    apply (Hfc c ki); [by eapply list_elem_of_lookup_2 |].
    by eapply Hits_extension.
Qed.

Section KeywordExtension.
Context `{rt : PyRuntime}.

(** X3.  Text added around a complaint never loses a keyword match: when the
    lowercased text occurs inside another lowercased text, that text is
    classified too, into the same category or one listed earlier. *)
Theorem keyword_match_survives_extension (text text' c : pystr) :
  Substring (str_lower text) (str_lower text') →
  manual_category_detection text = Some c →
  ∃ i j c',
    (j ≤ i)%nat ∧
    FirstHit CATEGORY_KEYWORDS (str_lower text) i c ∧
    FirstHit CATEGORY_KEYWORDS (str_lower text') j c' ∧
    manual_category_detection text' = Some c'.
Proof.
  unfold manual_category_detection. intros Hsub Hc.
  apply first_category_Some in Hc as [i Hi].
  destruct (first_category_extension _ _ _ _ _ Hsub Hi) as (j & c' & Hle & Hj & Hc').
  by exists i, j, c'.
Qed.

(** X4.  The keyword "waterlogging" of Drainage Issues contains the keyword
    "water" of Water Issues: every text with "waterlogging" in it is
    classified as Water Issues. *)
Theorem waterlogging_is_Water_Issues (text : pystr) :
  Substring (py "waterlogging") (str_lower text) →
  manual_category_detection text = Some (py "Water Issues") ∧
  manual_category_detection text ≠ Some (py "Drainage Issues").
Proof.
  intros Hsub.
  assert (Hwater : Substring (py "water") (py "waterlogging"))
    by (by exists [], (py "logging")).
  assert (Hc : manual_category_detection text = Some (py "Water Issues")).
  { unfold manual_category_detection, CATEGORY_KEYWORDS. cbn [first_category].
    replace (any_keyword _ (str_lower text)) with true; [done |].
    symmetry. apply any_keyword_spec. exists (py "water").
    split; [by left | by eapply Substring_trans]. }
  split; [done |]. rewrite Hc. by vm_compute.
Qed.

End KeywordExtension.

Lemma keyword_match_survives_extension_witness :
  Substring (str_lower (PyRuntime := ascii_runtime) (py "Pothole"))
            (str_lower (PyRuntime := ascii_runtime) (py "a pothole and a leak")) ∧
  manual_category_detection (rt := ascii_runtime) (py "Pothole")
  = Some (py "Road Issues") ∧
  ∃ i j c',
    (j ≤ i)%nat ∧
    FirstHit CATEGORY_KEYWORDS
      (str_lower (PyRuntime := ascii_runtime) (py "Pothole")) i (py "Road Issues") ∧
    FirstHit CATEGORY_KEYWORDS
      (str_lower (PyRuntime := ascii_runtime) (py "a pothole and a leak")) j c' ∧
    manual_category_detection (rt := ascii_runtime) (py "a pothole and a leak")
    = Some c'.
Proof.
  assert (Hsub : Substring
                   (str_lower (PyRuntime := ascii_runtime) (py "Pothole"))
                   (str_lower (PyRuntime := ascii_runtime)
                      (py "a pothole and a leak")))
    by (by exists (py "a "), (py " and a leak")).
  split; [exact Hsub |]. split; [reflexivity |].
  exact (keyword_match_survives_extension (rt := ascii_runtime)
           (py "Pothole") (py "a pothole and a leak") (py "Road Issues")
           Hsub eq_refl).
Defined.

Lemma waterlogging_is_Water_Issues_witness :
  Substring (py "waterlogging")
    (str_lower (PyRuntime := ascii_runtime) (py "Waterlogging after rain")) ∧
  manual_category_detection (rt := ascii_runtime) (py "Waterlogging after rain")
  = Some (py "Water Issues").
Proof.
  assert (Hsub : Substring (py "waterlogging")
                   (str_lower (PyRuntime := ascii_runtime)
                      (py "Waterlogging after rain")))
    by (by exists [], (py " after rain")).
  split; [exact Hsub |].
  exact (proj1 (waterlogging_is_Water_Issues (rt := ascii_runtime) _ Hsub)).
Defined.

(** ** Every run of [submit_complaint] *)

Section SubmitOutcomes.
Context `{rt : PyRuntime} {features : Type} (ml : MLComponents features).

(** A run ends in one of three ways. *)
Lemma submit_complaint_outcomes (request_json : pyval) (utcnow : Z) (w : world) :
  let run := submit_complaint ml request_json utcnow w in
  (∃ e, fst run = Ok (server_error e) ∧ collection (snd run) = collection w) ∨
  (fst run = Ok too_short ∧ collection (snd run) = collection w) ∨
  (∃ text c,
     let m := manual_category_detection text in
     fst run = Ok (submitted m c) ∧
     collection (snd run)
     = <[fresh (dom (collection w)) := make_entry text m c utcnow]> (collection w) ∧
     (10 ≤ length text)%nat ∧ c ∈ CATEGORIES ∧
     (truthy_opt m = true ↔ m = Some c) ∧ (truthy_opt m = false ↔ m = None)).
Proof.
  intros run. subst run. unfold submit_complaint.
  destruct (read_complaint request_json) as [raw|e] eqn:Hread.
  2: { left. exists e.
       unfold submit_complaint_with, try_except, bind, lift, ret.
       by rewrite Hread. }
  destruct (sanitize_text (PStr raw)) as [sanitized|e] eqn:Hsan.
  2: { left. exists e.
       unfold submit_complaint_with, try_except, bind, lift, call_sanitize,
         bind, record_call, lift, ret.
       rewrite Hread. cbn [collection calls]. by rewrite Hsan. }
  rewrite (submit_complaint_with_run _ _ _ _ _ _ Hread Hsan). cbn zeta.
  destruct (Nat.ltb_spec (length (str_lower sanitized)) 10) as [Hlt | Hge].
  { right. left. done. }
  set (text := str_lower sanitized) in *.
  destruct (manual_category_detection text) as [c|] eqn:Hc.
  - rewrite (classify_match _ _ _ _ Hc). right. right. exists text, c.
    rewrite Hc. cbn [fst snd stored logged collection].
    destruct (manual_category_truthy _ _ Hc) as [Ht _].
    repeat split; try done.
    + by eapply manual_category_in.
    + by rewrite Ht.
  - destruct (available ml) eqn:Hav.
    + destruct (classify_model ml text (logged w [CallSanitize (PStr raw)]) Hc Hav)
        as [[e ->] | [label ->]].
      * left. by exists e.
      * right. right. exists text, (validate_prediction label text).
        rewrite Hc. cbn [fst snd stored logged collection].
        repeat split; try done. apply validate_prediction_in.
    + rewrite (classify_degraded _ _ _ Hc Hav). right. right.
      exists text, (py "Other"). rewrite Hc.
      cbn [fst snd stored logged collection].
      repeat split; try done. apply Other_in_CATEGORIES.
Qed.

Lemma fresh_id_unused (m : gmap oid complaint_entry) : m !! fresh (dom m) = None.
Proof. apply not_elem_of_dom, is_fresh. Qed.

(** X5.  [submit_complaint] never lets an exception out: it answers with
    status 200, 400 or 500.  Unless the answer is 200 the collection is as
    it was; with 200 exactly one document was added, under an id that was
    not in use, and every document already stored is untouched. *)
Theorem submit_complaint_answers (request_json : pyval) (utcnow : Z) (w : world) :
  let run := submit_complaint ml request_json utcnow w in
  ∃ answer,
    fst run = Ok answer ∧
    (snd answer = 200 ∨ snd answer = 400 ∨ snd answer = 500) ∧
    (snd answer ≠ 200 → collection (snd run) = collection w) ∧
    (snd answer = 200 →
     size (collection (snd run)) = S (size (collection w)) ∧
     ∀ id doc, collection w !! id = Some doc →
               collection (snd run) !! id = Some doc).
Proof.
  intros run.
  destruct (submit_complaint_outcomes request_json utcnow w)
    as [(e & Hans & Hcol) | [(Hans & Hcol) | (text & c & Hans & Hcol & _)]];
    fold run in Hans, Hcol.
  - exists (server_error e). split; [done |]. split; [by right; right |].
    split; [done |]. intros Hst. by vm_compute in Hst.
  - exists too_short. split; [done |]. split; [by right; left |].
    split; [done |]. intros Hst. by vm_compute in Hst.
  - eexists. split; [exact Hans |]. split; [by left |]. split; [done |].
    intros _. rewrite Hcol. split.
    + apply map_size_insert_None, fresh_id_unused.
    + intros id doc Hdoc. rewrite lookup_insert_ne; [done |].
      intros <-. by rewrite fresh_id_unused in Hdoc.
Qed.

(** X6.  When the answer is 200, the category in the answer is the category
    of the stored document, [auto_corrected] is true exactly when the
    document is tagged ["manual"], and the document has no votes, the
    clock reading as timestamp, the model version, and a complaint of at
    least 10 characters. *)
Theorem submitted_record_matches_answer (request_json : pyval) (utcnow : Z)
    (w : world) (answer : response) :
  let run := submit_complaint ml request_json utcnow w in
  fst run = Ok answer → snd answer = 200 →
  ∃ doc m,
    collection (snd run) !! fresh (dom (collection w)) = Some doc ∧
    answer = submitted m (category doc) ∧
    (truthy_opt m = true ↔ prediction_source doc = py "manual") ∧
    (truthy_opt m = false ↔ prediction_source doc = py "model") ∧
    category doc ∈ CATEGORIES ∧
    votes doc = 0 ∧ timestamp doc = utcnow ∧
    model_version doc = MODEL_VERSION ∧
    (10 ≤ length (complaint doc))%nat.
Proof.
  intros run Hanswer Hstatus.
  destruct (submit_complaint_outcomes request_json utcnow w)
    as [(e & Hans & _) | [(Hans & _) | (text & c & Hans & Hcol & Hlen & Hin & _)]];
    fold run in Hans; rewrite Hanswer in Hans; injection Hans as ->.
  - by vm_compute in Hstatus.
  - by vm_compute in Hstatus.
  - fold run in Hcol. eexists _, _. rewrite Hcol, lookup_insert_eq.
    split; [done |]. cbn [make_entry category prediction_source votes timestamp
                            model_version complaint].
    split; [done |].
    destruct (truthy_opt (manual_category_detection text)); repeat split; done.
Qed.

(** X7.  A payload that is false in a truth test (no JSON, [null], [0],
    [""], [[]], [false]) is handled as the empty object.  Any other payload
    that is not an object is answered with status 500, before the sanitizer
    is called and with the world as it was. *)
Theorem submit_payload_not_an_object (request_json : pyval) (utcnow : Z)
    (w : world) :
  (truthy request_json = false →
   submit_complaint ml request_json utcnow w
   = submit_complaint ml (PDict []) utcnow w) ∧
  (truthy request_json = true → (∀ d, request_json ≠ PDict d) →
   ∃ e, submit_complaint ml request_json utcnow w = (Ok (server_error e), w)).
Proof.
  split.
  - intros Hfalse.
    unfold submit_complaint, submit_complaint_with, read_complaint.
    by rewrite Hfalse.
  - intros Htrue Hobj.
    unfold submit_complaint, submit_complaint_with, try_except, bind, lift,
      read_complaint.
    rewrite Htrue.
    destruct request_json; try (by eexists); by destruct (Hobj d).
Qed.

Lemma lstrip_blank (s : pystr) :
  Forall (fun c => str_isspace c = true) s → lstrip s = [].
Proof. induction 1 as [|c s Hc _ IH]; [done |]. cbn [lstrip]. by rewrite Hc. Qed.

(** X8.  On a runtime whose [lower] gives fewer than 10 characters for the
    empty string, a complaint that is missing, empty or made of whitespace
    only is answered with the length rejection: the sanitizer sees the
    empty string. *)
Theorem blank_complaint_is_too_short (d : list (pystr * pyval)) (utcnow : Z)
    (w : world) :
  (length (str_lower []) < 10)%nat →
  (dict_lookup d (py "complaint") = None ∨
   ∃ s, dict_lookup d (py "complaint") = Some (PStr s) ∧
        Forall (fun c => str_isspace c = true) s) →
  submit_complaint ml (PDict d) utcnow w
  = (Ok too_short, logged w [CallSanitize (PStr [])]).
Proof.
  intros Hlow Hblank.
  assert (Hread : read_complaint (PDict d) = Ok []).
  { unfold read_complaint.
    replace (if truthy (PDict d) then PDict d else PDict []) with (PDict d)
      by (by destruct d).
    cbn [py_get]. destruct Hblank as [-> | (s & -> & Hs)]; cbn.
    - done.
    - unfold strip. by rewrite (lstrip_blank _ Hs). }
  unfold submit_complaint.
  rewrite (submit_complaint_with_run _ _ _ _ _ _ Hread eq_refl). cbn zeta.
  by rewrite (proj2 (Nat.ltb_lt _ _) Hlow).
Qed.

End SubmitOutcomes.

Lemma submitted_record_matches_answer_witness :
  let run := submit_complaint (rt := ascii_runtime) no_model
               (complaint_request "Street light flickering") 7 empty_world in
  let answer := submitted (Some (py "Road Issues")) (py "Road Issues") in
  fst run = Ok answer ∧ snd answer = 200 ∧
  ∃ doc m,
    collection (snd run) !! fresh (dom (collection empty_world)) = Some doc ∧
    answer = submitted m (category doc) ∧
    (truthy_opt m = true ↔ prediction_source doc = py "manual") ∧
    (truthy_opt m = false ↔ prediction_source doc = py "model") ∧
    category doc ∈ CATEGORIES ∧
    votes doc = 0 ∧ timestamp doc = 7 ∧
    model_version doc = MODEL_VERSION ∧
    (10 ≤ length (complaint doc))%nat.
Proof.
  intros run answer.
  assert (Hrun : fst run = Ok answer) by reflexivity.
  split; [exact Hrun |]. split; [reflexivity |].
  exact (submitted_record_matches_answer (rt := ascii_runtime) no_model
           (complaint_request "Street light flickering") 7 empty_world answer
           Hrun eq_refl).
Defined.

Lemma blank_complaint_is_too_short_witness :
  (length (str_lower (PyRuntime := ascii_runtime) []) < 10)%nat ∧
  submit_complaint (rt := ascii_runtime) no_model
    (PDict [(py "complaint", PStr [32; 9; 10; 0x3000])]) 0 empty_world
  = (Ok too_short, logged empty_world [CallSanitize (PStr [])]).
Proof.
  assert (Hlow : (length (str_lower (PyRuntime := ascii_runtime) []) < 10)%nat)
    by (vm_compute; lia).
  split; [exact Hlow |].
  apply (blank_complaint_is_too_short (rt := ascii_runtime) no_model
           [(py "complaint", PStr [32; 9; 10; 0x3000])] 0 empty_world Hlow).
  right. exists [32; 9; 10; 0x3000]. split; [reflexivity |].
  repeat constructor.
Defined.

(** ** Every run of [vote] *)

Section VoteOutcomes.
Context `{rt : PyRuntime}.

(** The collection after a vote: the addressed document, if the request
    addresses one, went through [inc_votes]. *)
Lemma vote_collection (request_json : pyval) (w : world) :
  collection (snd (vote request_json w))
  = match vote_target request_json with
    | Some id => alter inc_votes id (collection w)
    | None => collection w
    end.
Proof.
  unfold vote, vote_target, try_except, bind, lift, update_one_inc_votes, ret.
  destruct (py_get request_json (py "id") PNone) as [complaint_id|e]; [| done].
  destruct (truthy complaint_id); cbn [negb]; [| done].
  destruct (ObjectId complaint_id) as [id|e]; [| done].
  by destruct (collection w !! id).
Qed.

(** The answer to a vote. *)
Lemma vote_answer (request_json : pyval) (w : world) :
  fst (vote request_json w)
  = Ok match py_get request_json (py "id") PNone with
       | Raise e => vote_error e
       | Ok complaint_id =>
           if truthy complaint_id then
             match ObjectId complaint_id with
             | Raise e => vote_error e
             | Ok id =>
                 match collection w !! id with
                 | Some _ => vote_counted
                 | None => not_found
                 end
             end
           else missing_id
       end.
Proof.
  unfold vote, try_except, bind, lift, update_one_inc_votes, ret.
  destruct (py_get request_json (py "id") PNone) as [complaint_id|e]; [| done].
  destruct (truthy complaint_id); cbn [negb]; [| done].
  destruct (ObjectId complaint_id) as [id|e]; [| done].
  by destruct (collection w !! id).
Qed.

Lemma inc_votes_with_votes (doc : complaint_entry) :
  inc_votes doc = with_votes doc (votes doc + 1).
Proof. done. Qed.

(** X9.  [vote] never lets an exception out: it answers with status 200,
    400, 404 or 500.  It never adds or removes a document; unless the answer
    is 200 the collection is as it was, and with 200 the one document the
    request addresses has one vote more and all else is unchanged. *)
Theorem vote_answers (request_json : pyval) (w : world) :
  let run := vote request_json w in
  ∃ answer,
    fst run = Ok answer ∧
    (snd answer = 200 ∨ snd answer = 400 ∨ snd answer = 404 ∨ snd answer = 500) ∧
    dom (collection (snd run)) = dom (collection w) ∧
    (snd answer ≠ 200 → collection (snd run) = collection w) ∧
    (snd answer = 200 →
     ∃ id doc, vote_target request_json = Some id ∧
               collection w !! id = Some doc ∧
               collection (snd run)
               = <[id := with_votes doc (votes doc + 1)]> (collection w)).
Proof.
  intros run. subst run. eexists. split; [apply vote_answer |].
  rewrite vote_collection. unfold vote_target.
  destruct (py_get request_json (py "id") PNone) as [complaint_id|e].
  2: { split; [by do 3 right |]. split; [done |]. split; [done |].
       intros Hst. by vm_compute in Hst. }
  destruct (truthy complaint_id).
  2: { split; [by right; left |]. split; [done |]. split; [done |].
       intros Hst. by vm_compute in Hst. }
  destruct (ObjectId complaint_id) as [id|e].
  2: { split; [by do 3 right |]. split; [done |]. split; [done |].
       intros Hst. by vm_compute in Hst. }
  destruct (collection w !! id) as [doc|] eqn:Hdoc.
  - split; [by left |]. split; [by rewrite dom_alter_L |].
    split; [done |]. intros _. exists id, doc. repeat split; [done |].
    by rewrite (alter_inc_votes_Some _ _ _ Hdoc).
  - rewrite (alter_inc_votes_None _ _ Hdoc).
    split; [by right; right; left |]. split; [done |]. split; [done |].
    intros Hst. by vm_compute in Hst.
Qed.

(** X10.  A vote whose body is not a JSON object (no body, a list, a
    string, a number) is answered with status 500 and changes nothing. *)
Theorem vote_payload_not_an_object (request_json : pyval) (w : world) :
  (∀ d, request_json ≠ PDict d) →
  ∃ e, vote request_json w = (Ok (vote_error e), w) ∧ snd (vote_error e) = 500.
Proof.
  intros Hobj. unfold vote, try_except, bind, lift, ret.
  destruct request_json; try (by eexists); by destruct (Hobj d).
Qed.

(** X11.  Votes commute: two vote requests leave the same collection in
    either order, and each is answered as it would be alone. *)
Theorem votes_commute (request1 request2 : pyval) (w : world) :
  collection (snd (vote request2 (snd (vote request1 w))))
  = collection (snd (vote request1 (snd (vote request2 w)))) ∧
  fst (vote request2 (snd (vote request1 w))) = fst (vote request2 w) ∧
  fst (vote request1 (snd (vote request2 w))) = fst (vote request1 w).
Proof.
  assert (Hsame : ∀ r1 r2, fst (vote r2 (snd (vote r1 w))) = fst (vote r2 w)).
  { intros r1 r2. rewrite !vote_answer, vote_collection.
    destruct (py_get r2 (py "id") PNone) as [complaint_id|e]; [| done].
    destruct (truthy complaint_id); [| done].
    destruct (ObjectId complaint_id) as [id|e]; [| done].
    destruct (vote_target r1) as [id1|]; [| done].
    destruct (decide (id1 = id)) as [-> | Hne].
    - rewrite lookup_alter_eq. by destruct (collection w !! id).
    - by rewrite lookup_alter_ne. }
  split; [| split; apply Hsame].
  rewrite !vote_collection.
  destruct (vote_target request1) as [id1|], (vote_target request2) as [id2|];
    try done.
  apply map_eq. intros j.
  destruct (decide (id1 = j)) as [E1 | Hne1];
    destruct (decide (id2 = j)) as [E2 | Hne2]; subst;
    repeat (rewrite lookup_alter_eq || rewrite lookup_alter_ne by done);
    done.
Qed.

End VoteOutcomes.

Lemma vote_payload_not_an_object_witness :
  (∀ d, PList [PStr (py "000000000000000000000001")] ≠ PDict d) ∧
  ∃ e, vote (rt := ascii_runtime)
         (PList [PStr (py "000000000000000000000001")]) one_document
       = (Ok (vote_error e), one_document) ∧ snd (vote_error e) = 500.
Proof.
  assert (Hobj : ∀ d, PList [PStr (py "000000000000000000000001")] ≠ PDict d)
    by (intros d; discriminate).
  split; [exact Hobj |].
  exact (vote_payload_not_an_object (rt := ascii_runtime) _ one_document Hobj).
Defined.

(** ** A submission followed by a vote *)

Section SubmitThenVote.
Context `{rt : PyRuntime} {features : Type} (ml : MLComponents features).

Lemma vote_answer_target (vote_json : pyval) (id : oid) (w : world) :
  vote_target vote_json = Some id →
  fst (vote vote_json w)
  = Ok match collection w !! id with
       | Some _ => vote_counted
       | None => not_found
       end.
Proof.
  rewrite vote_answer. unfold vote_target.
  destruct (py_get vote_json (py "id") PNone) as [complaint_id|e]; [| done].
  destruct (truthy complaint_id); [| done].
  destruct (ObjectId complaint_id) as [id'|e]; [| done].
  by intros [= ->].
Qed.

(** X12.  A complaint that was just accepted can be voted for: it is stored
    with no votes under the id the collection gave it, and a vote request
    for that id is counted and leaves it with one vote. *)
Theorem submitted_complaint_can_be_voted (request_json vote_json : pyval)
    (utcnow : Z) (w : world) (answer : response) :
  let id := fresh (dom (collection w)) in
  let w1 := snd (submit_complaint ml request_json utcnow w) in
  fst (submit_complaint ml request_json utcnow w) = Ok answer →
  snd answer = 200 →
  vote_target vote_json = Some id →
  votes <$> collection w1 !! id = Some 0 ∧
  fst (vote vote_json w1) = Ok vote_counted ∧
  votes <$> collection (snd (vote vote_json w1)) !! id = Some 1.
Proof.
  intros id w1 Hanswer Hstatus Htarget.
  destruct (submit_complaint_outcomes ml request_json utcnow w)
    as [(e & Hans & _) | [(Hans & _) | (text & c & Hans & Hcol & _)]];
    rewrite Hanswer in Hans; injection Hans as ->;
    try (by vm_compute in Hstatus).
  fold w1 id in Hcol.
  assert (Hdoc : collection w1 !! id
                 = Some (make_entry text (manual_category_detection text) c utcnow))
    by (by rewrite Hcol, lookup_insert_eq).
  split; [by rewrite Hdoc |].
  rewrite (vote_answer_target _ _ _ Htarget), vote_collection, Htarget, Hdoc.
  split; [done |]. by rewrite lookup_alter_eq, Hdoc.
Qed.

End SubmitThenVote.

Lemma submitted_complaint_can_be_voted_witness :
  let run := submit_complaint (rt := ascii_runtime) no_model
               (complaint_request "garbage not collected") 3 empty_world in
  let vote_json := vote_request "000000000000000000000000" in
  fst run = Ok (submitted (Some (py "Garbage Issues")) (py "Garbage Issues")) ∧
  vote_target (rt := ascii_runtime) vote_json
  = Some (fresh (dom (collection empty_world))) ∧
  fst (vote (rt := ascii_runtime) vote_json (snd run)) = Ok vote_counted.
Proof.
  intros run vote_json.
  assert (Hrun : fst run
                 = Ok (submitted (Some (py "Garbage Issues")) (py "Garbage Issues")))
    by reflexivity.
  assert (Htarget : vote_target (rt := ascii_runtime) vote_json
                    = Some (fresh (dom (collection empty_world))))
    by reflexivity.
  split; [exact Hrun |]. split; [exact Htarget |].
  exact (proj1 (proj2 (submitted_complaint_can_be_voted (rt := ascii_runtime)
                         no_model _ vote_json 3 empty_world _ Hrun eq_refl
                         Htarget))).
Defined.

(** ** The listing and the three routes together *)

Section Routes.
Context `{rt : PyRuntime} `{lr : ListingRuntime}.
Context {features : Type} (ml : MLComponents features).

Lemma Z_to_nat_skip (p : Z) : 1 <= p → Z.to_nat ((p - 1) * 20) = (20 * Z.to_nat (p - 1))%nat.
Proof. lia. Qed.

(** What [get_complaints] does, case by case. *)
Lemma get_complaints_run (args : list (pystr * pystr)) (w : world) :
  get_complaints args w
  = (Ok match page_arg args with
        | Raise e => server_error e
        | Ok page =>
            if (page - 1) * 20 <? 0 then server_error (py "skip must be >= 0")
            else if int64_max <? (page - 1) * 20 then
              server_error (py "MongoDB can only handle up to 8-byte ints")
            else
              match compile_query (listing_query (category_arg args)) with
              | Raise e => server_error e
              | Ok matches =>
                  listing
                    (take 20 (drop (Z.to_nat ((page - 1) * 20))
                                (sort_timestamp_desc (find_all matches w))))
                    (Z.of_nat (length (find_all matches w))) page 20
              end
        end, w).
Proof.
  unfold get_complaints, try_except, bind, lift, find_sorted_page,
    count_documents, ret.
  destruct (page_arg args) as [page|e]; [| done].
  destruct ((page - 1) * 20 <? 0); [done |].
  destruct (int64_max <? (page - 1) * 20); [done |].
  by destruct (compile_query (listing_query (category_arg args))).
Qed.

(** X13.  [get_complaints] never lets an exception out and never writes: it
    answers with status 200 or 500 and leaves the world, collection and log,
    as it was. *)
Theorem get_complaints_reads_only (args : list (pystr * pystr)) (w : world) :
  ∃ answer, get_complaints args w = (Ok answer, w) ∧
            (snd answer = 200 ∨ snd answer = 500).
Proof.
  rewrite get_complaints_run. eexists. split; [done |].
  destruct (page_arg args) as [page|e]; [| by right].
  destruct ((page - 1) * 20 <? 0); [by right |].
  destruct (int64_max <? (page - 1) * 20); [by right |].
  destruct (compile_query _); [by left | by right].
Qed.

(** X14.  A page number that [int] refuses, and a page number below 1, are
    answered with status 500: the first with the message of [int], the
    second with the driver's refusal of a negative skip. *)
Theorem get_complaints_bad_page (args : list (pystr * pystr)) (w : world) :
  (∀ e, page_arg args = Raise e →
        get_complaints args w = (Ok (server_error e), w)) ∧
  (∀ page, page_arg args = Ok page → page <= 0 →
           get_complaints args w
           = (Ok (server_error (py "skip must be >= 0")), w)) ∧
  (args_get args (py "page") = None → page_arg args = Ok 1).
Proof.
  rewrite get_complaints_run. repeat split.
  - by intros e ->.
  - intros page -> Hpage.
    by rewrite (proj2 (Z.ltb_lt ((page - 1) * 20) 0)) by lia.
  - unfold page_arg. by intros ->.
Qed.

Lemma find_all_everything (w : world) :
  find_all (fun _ => true) w = map_to_list (collection w).
Proof.
  unfold find_all. induction (map_to_list (collection w)) as [|kv l IH];
    [done |].
  cbn [List.filter]. by rewrite IH.
Qed.

(** X15.  For a page number of at least 1: when the skip [20 * (page - 1)]
    does not fit 8 bytes, or the category is not ["All"] and the pattern
    made of it is refused as a regular expression, the answer is status 500
    with the error's message; otherwise the answer is status 200 with page
    [page - 1] of the sorted matching documents, at most 20 of them, and
    with the number of all matching documents as total, whatever the page.
    For the category ["All"] every document matches and the total is the
    size of the collection. *)
Theorem get_complaints_page (args : list (pystr * pystr)) (w : world) (page : Z) :
  page_arg args = Ok page → 1 <= page →
  let query := listing_query (category_arg args) in
  (int64_max < (page - 1) * 20 →
   get_complaints args w
   = (Ok (server_error (py "MongoDB can only handle up to 8-byte ints")), w)) ∧
  ((page - 1) * 20 <= int64_max →
   ∀ e, compile_query query = Raise e →
        get_complaints args w = (Ok (server_error e), w)) ∧
  ((page - 1) * 20 <= int64_max →
   ∀ matches, compile_query query = Ok matches →
     let sorted := sort_timestamp_desc (find_all matches w) in
     let complaints := page_of sorted (Z.to_nat (page - 1)) in
     get_complaints args w
     = (Ok (listing complaints (Z.of_nat (length (find_all matches w))) page 20),
        w) ∧
     snd (listing complaints (Z.of_nat (length (find_all matches w))) page 20)
     = 200 ∧
     (length complaints ≤ 20)%nat) ∧
  (category_arg args = py "All" →
   compile_query query = Ok (fun _ => true) ∧
   length (find_all (fun _ => true) w) = size (collection w)) ∧
  (category_arg args ≠ py "All" →
   query = CategoryRegex (py "^" ++ category_arg args ++ py "$")).
Proof.
  intros Hpage Hge query. subst query.
  rewrite get_complaints_run, Hpage.
  rewrite (proj2 (Z.ltb_ge ((page - 1) * 20) 0)) by lia.
  split; [| split; [| split; [| split]]].
  - intros Hbig. by rewrite (proj2 (Z.ltb_lt int64_max _) Hbig).
  - intros Hfit e ->. by rewrite (proj2 (Z.ltb_ge int64_max _) Hfit).
  - intros Hfit matches ->. rewrite (proj2 (Z.ltb_ge int64_max _) Hfit).
    cbn zeta. rewrite Z_to_nat_skip by done. unfold page_of.
    split; [done |]. split; [done |]. apply firstn_le_length.
  - intros ->. unfold listing_query.
    replace (str_eqb (py "All") (py "All")) with true by done.
    split; [done |].
    by rewrite find_all_everything, length_map_to_list.
  - intros Hne. unfold listing_query, str_eqb.
    by rewrite bool_decide_eq_false_2.
Qed.


Lemma find_all_sublist (query : complaint_entry → bool) (w : world) :
  find_all query w `sublist_of` map_to_list (collection w).
Proof.
  unfold find_all. induction (map_to_list (collection w)) as [|kv l IH];
    cbn [List.filter]; [done |].
  destruct (query (snd kv)); by constructor.
Qed.

(** X17.  When the database sort is a sort by descending timestamp, a page
    lists documents of the collection that match the query, each at most
    once, latest first; when at most 20 documents match, the first page
    lists them all. *)
Theorem page_entries_sorted (query : complaint_entry → bool) (w : world)
    (p : nat) :
  sorts_by_timestamp_desc sort_timestamp_desc →
  let complaints := page_of (sort_timestamp_desc (find_all query w)) p in
  StronglySorted timestamp_ge complaints ∧
  NoDup complaints ∧
  (∀ id doc, (id, doc) ∈ complaints →
             collection w !! id = Some doc ∧ query doc = true) ∧
  ((length (find_all query w) ≤ 20)%nat → p = 0%nat →
   complaints ≡ₚ find_all query w).
Proof.
  intros Hsort complaints. subst complaints.
  destruct (Hsort (find_all query w)) as [Hperm Hsorted].
  set (sorted := sort_timestamp_desc (find_all query w)) in *.
  assert (Hsub : page_of sorted p `sublist_of` sorted).
  { unfold page_of. etrans; [apply sublist_take | apply sublist_drop]. }
  assert (Hnodup : NoDup (find_all query w)).
  { eapply sublist_NoDup; [apply NoDup_map_to_list | apply find_all_sublist]. }
  repeat split.
  - unfold page_of.
    rewrite <- (take_drop (20 * p) sorted) in Hsorted.
    apply StronglySorted_app_1_r in Hsorted.
    rewrite <- (take_drop 20 (drop (20 * p) sorted)) in Hsorted.
    by apply StronglySorted_app_1_l in Hsorted.
  - eapply sublist_NoDup; [| exact Hsub]. by rewrite Hperm.
  - assert (Hin : (id, doc) ∈ find_all query w).
    { rewrite <- Hperm. eapply elem_of_sublist; [done | exact Hsub]. }
    unfold find_all in Hin. apply list_elem_of_In, filter_In in Hin as [Hin _].
    by apply list_elem_of_In, elem_of_map_to_list in Hin.
  - assert (Hin : (id, doc) ∈ find_all query w).
    { rewrite <- Hperm. eapply elem_of_sublist; [done | exact Hsub]. }
    unfold find_all in Hin. by apply list_elem_of_In, filter_In in Hin as [_ Hq].
  - intros Hlen ->. unfold page_of. cbn [Nat.mul drop].
    rewrite take_ge; [done |]. by rewrite Hperm.
Qed.

Lemma inc_votes_ok (doc : complaint_entry) : doc_ok doc → doc_ok (inc_votes doc).
Proof.
  intros (Hcat & Hlen & Hvotes & Hsrc & Hver).
  repeat split; cbn [inc_votes category complaint votes prediction_source
                       model_version]; try done.
  lia.
Qed.

Lemma handle_store_ok (r : http_request) (w : world) :
  store_ok w → store_ok (snd (handle ml r w)).
Proof.
  intros Hok. destruct r as [request_json utcnow | args | request_json];
    cbn [handle].
  - destruct (submit_complaint_outcomes ml request_json utcnow w)
      as [(e & _ & Hcol) | [(_ & Hcol) | (text & c & _ & Hcol & Hlen & Hin & _)]];
      intros id doc; rewrite Hcol; [apply Hok | apply Hok |].
    destruct (decide (fresh (dom (collection w)) = id)) as [<- | Hne].
    + rewrite lookup_insert_eq. intros [= <-].
      repeat split; cbn [make_entry category complaint votes prediction_source
                           model_version]; try done.
      destruct (truthy_opt _); [left | right; left].
    + rewrite lookup_insert_ne by done. apply Hok.
  - rewrite get_complaints_run. apply Hok.
  - intros id doc. rewrite vote_collection.
    destruct (vote_target request_json) as [target|]; [| apply Hok].
    destruct (decide (target = id)) as [-> | Hne].
    + rewrite lookup_alter_eq.
      destruct (collection w !! id) as [old|] eqn:Hold; [| done].
      intros [= <-]. apply inc_votes_ok. by eapply Hok.
    + rewrite lookup_alter_ne by done. apply Hok.
Qed.

Lemma handle_document_persists (r : http_request) (w : world) (id : oid)
    (doc : complaint_entry) :
  collection w !! id = Some doc →
  ∃ n : nat, collection (snd (handle ml r w)) !! id
             = Some (with_votes doc (votes doc + Z.of_nat n)).
Proof.
  intros Hdoc.
  assert (Hsame : with_votes doc (votes doc + Z.of_nat 0) = doc).
  { rewrite Z.add_0_r. by destruct doc. }
  destruct r as [request_json utcnow | args | request_json]; cbn [handle].
  - exists 0%nat. rewrite Hsame.
    destruct (submit_complaint_outcomes ml request_json utcnow w)
      as [(e & _ & Hcol) | [(_ & Hcol) | (text & c & _ & Hcol & _)]];
      rewrite Hcol; [done | done |].
    rewrite lookup_insert_ne; [done |].
    intros Heq. by rewrite <- Heq, fresh_id_unused in Hdoc.
  - rewrite get_complaints_run. exists 0%nat. by rewrite Hsame.
  - rewrite vote_collection.
    destruct (vote_target request_json) as [target|];
      [| exists 0%nat; by rewrite Hsame].
    destruct (decide (target = id)) as [-> | Hne].
    + exists 1%nat. by rewrite lookup_alter_eq, Hdoc.
    + exists 0%nat. by rewrite lookup_alter_ne, Hsame.
Qed.

(** X18.  Whatever requests are served, every document of the collection
    keeps a category of [CATEGORIES], a complaint of at least 10
    characters, a vote count that is not negative, the tag ["manual"] or
    ["model"], and the model version. *)
Theorem served_store_ok (requests : list http_request) (w : world) :
  store_ok w → store_ok (serve ml requests w).
Proof.
  revert w. induction requests as [|r rest IH]; intros w Hok; [done |].
  cbn [serve]. by apply IH, handle_store_ok.
Qed.

(** X19.  Whatever requests are served, a stored document is never removed
    and never edited: it is still there under its id, with the same fields
    and at least as many votes. *)
Theorem served_document_persists (requests : list http_request) (w : world)
    (id : oid) (doc : complaint_entry) :
  collection w !! id = Some doc →
  ∃ n : nat, collection (serve ml requests w) !! id
             = Some (with_votes doc (votes doc + Z.of_nat n)).
Proof.
  revert w doc. induction requests as [|r rest IH]; intros w doc Hdoc.
  - exists 0%nat. cbn [serve]. rewrite Hdoc, Z.add_0_r. by destruct doc.
  - cbn [serve]. destruct (handle_document_persists r w id doc Hdoc) as [n Hn].
    destruct (IH _ _ Hn) as [n' Hn']. exists (n + n')%nat. rewrite Hn'.
    f_equal. unfold with_votes. cbn. f_equal. lia.
Qed.

End Routes.

(** ** Witnesses on the concrete runtimes *)

Lemma merge_sort_sorts :
  sorts_by_timestamp_desc (sort_timestamp_desc (ListingRuntime := list_runtime)).
Proof.
  intros l. cbn [sort_timestamp_desc list_runtime]. split.
  - apply merge_sort_Permutation.
  - apply StronglySorted_merge_sort.
    + intros a b c. unfold timestamp_ge. lia.
    + intros a b. unfold timestamp_ge. lia.
Qed.

Lemma get_complaints_page_witness :
  page_arg (lr := list_runtime) [(py "page", py "2")] = Ok 2 ∧ 1 <= 2 ∧
  get_complaints (rt := ascii_runtime) (lr := list_runtime)
    [(py "page", py "2")] one_document
  = (Ok (listing (lr := list_runtime) [] 1 2 20), one_document).
Proof.
  split; [reflexivity |]. split; [lia |].
  destruct (get_complaints_page (rt := ascii_runtime) (lr := list_runtime)
              [(py "page", py "2")] one_document 2 eq_refl ltac:(lia))
    as (_ & _ & Hrun & _).
  assert (Hfit : (2 - 1) * 20 <= int64_max) by (vm_compute; discriminate).
  exact (proj1 (Hrun Hfit (fun _ => true) eq_refl)).
Defined.


Lemma page_entries_sorted_witness :
  sorts_by_timestamp_desc (sort_timestamp_desc (ListingRuntime := list_runtime)) ∧
  StronglySorted timestamp_ge
    (page_of (sort_timestamp_desc (ListingRuntime := list_runtime)
                (find_all (fun _ => true) one_document)) 0).
Proof.
  split; [exact merge_sort_sorts |].
  exact (proj1 (page_entries_sorted (lr := list_runtime) (fun _ => true)
                  one_document 0 merge_sort_sorts)).
Defined.

Lemma empty_world_ok : store_ok empty_world.
Proof.
  intros id doc Hdoc. cbn [empty_world collection] in Hdoc.
  by rewrite lookup_empty in Hdoc.
Qed.

Lemma served_store_ok_witness :
  store_ok empty_world ∧
  store_ok (serve (rt := ascii_runtime) (lr := list_runtime) no_model
              [PostSubmitComplaint (complaint_request "power outage again") 4;
               PostVote (vote_request "000000000000000000000000");
               GetComplaints []]
              empty_world).
Proof.
  split; [exact empty_world_ok |].
  exact (served_store_ok (rt := ascii_runtime) (lr := list_runtime) no_model _ _
           empty_world_ok).
Defined.

Lemma served_document_persists_witness :
  let doc := make_entry (py "water leak near my house")
               (Some (py "Water Issues")) (py "Water Issues") 0 in
  collection one_document !! 1%N = Some doc ∧
  ∃ n : nat,
    collection (serve (rt := ascii_runtime) (lr := list_runtime) no_model
                  [PostVote (vote_request "000000000000000000000001");
                   PostSubmitComplaint (complaint_request "tree fell on road") 9;
                   PostVote (vote_request "000000000000000000000001")]
                  one_document) !! 1%N
    = Some (with_votes doc (votes doc + Z.of_nat n)).
Proof.
  intros doc.
  assert (Hdoc : collection one_document !! 1%N = Some doc) by reflexivity.
  split; [exact Hdoc |].
  exact (served_document_persists (rt := ascii_runtime) (lr := list_runtime)
           no_model _ one_document 1%N doc Hdoc).
Defined.

(** The listing on a collection of two complaints, the second one voted for. *)
Example listing_latest_first :
  let w := serve (rt := ascii_runtime) (lr := list_runtime) no_model
             [PostSubmitComplaint (complaint_request "water leak near my house") 5;
              PostSubmitComplaint (complaint_request "big pothole on main street") 9;
              PostSubmitComplaint (complaint_request "xyz") 10;
              PostVote (vote_request "000000000000000000000001")]
             empty_world in
  map (fun c => (fst c, timestamp (snd c), votes (snd c)))
    (page_of (sort_timestamp_desc (ListingRuntime := list_runtime)
                (find_all (fun _ => true) w)) 0)
  = [(1%N, 9, 1); (0%N, 5, 0)] ∧
  fst (get_complaints (rt := ascii_runtime) (lr := list_runtime)
         [(py "category", py " road issues ")] w)
  = Ok (listing (lr := list_runtime)
          [(1%N, inc_votes (make_entry (py "big pothole on main street")
                              (Some (py "Road Issues")) (py "Road Issues") 9))]
          1 1 20) ∧
  fst (get_complaints (rt := ascii_runtime) (lr := list_runtime)
         [(py "category", py "(")] w)
  = Ok (server_error (py "Regular expression is invalid")) ∧
  fst (get_complaints (rt := ascii_runtime) (lr := list_runtime)
         [(py "page", py "9223372036854775807")] w)
  = Ok (server_error (py "MongoDB can only handle up to 8-byte ints")).
Proof. by vm_compute. Qed.

(** ** What a submission calls *)

(** Split a membership in an explicit list into its cases. *)
Ltac in_cases H :=
  repeat (apply elem_of_cons in H as [H | H]; [try discriminate |]);
  try (by apply elem_of_nil in H).

Section SubmitCalls.
Context `{rt : PyRuntime} {features : Type} (ml : MLComponents features).

(** X20.  A submission only adds to the log of calls.  The statistical model
    is called only when all three artifacts are loaded, and only on a text
    of at least 10 characters in which the keyword stage found nothing; a
    document is inserted only when the answer is 200; votes are never
    updated. *)
Theorem submit_complaint_calls (request_json : pyval) (utcnow : Z) (w : world) :
  let run := submit_complaint ml request_json utcnow w in
  ∃ evs,
    calls (snd run) = calls w ++ evs ∧
    (∀ text, CallModel text ∈ evs →
             available ml = true ∧ manual_category_detection text = None ∧
             (10 ≤ length text)%nat) ∧
    (∀ doc, CallInsert doc ∈ evs →
            ∃ m, fst run = Ok (submitted m (category doc))) ∧
    (∀ id, CallUpdate id ∉ evs).
Proof.
  intros run. subst run. unfold submit_complaint.
  destruct (read_complaint request_json) as [raw|e] eqn:Hread.
  2: { exists []. unfold submit_complaint_with, try_except, bind, lift, ret.
       rewrite Hread. cbn [snd]. rewrite app_nil_r.
       split; [done |]. split; [| split]; intros ? Hin; in_cases Hin. }
  destruct (sanitize_text (PStr raw)) as [sanitized|e] eqn:Hsan.
  2: { exists [CallSanitize (PStr raw)].
       unfold submit_complaint_with, try_except, bind, lift, call_sanitize,
         bind, record_call, lift, ret.
       rewrite Hread. cbn [collection calls]. rewrite Hsan. cbn [snd calls].
       split; [done |]. split; [| split]; intros ? Hin; in_cases Hin. }
  destruct (Nat.ltb_spec (length (str_lower sanitized)) 10) as [Hlt | Hge].
  { exists [CallSanitize (PStr raw)].
    rewrite (submit_complaint_with_run _ _ _ _ _ _ Hread Hsan). cbn zeta.
    rewrite (proj2 (Nat.ltb_lt _ _) Hlt). cbn [snd logged calls].
    split; [done |]. split; [| split]; intros ? Hin; in_cases Hin. }
  destruct (submit_complaint_cases ml request_json utcnow w raw sanitized
              Hread Hsan Hge) as (Hmatch & Hmodel & Hdegraded).
  unfold submit_complaint in Hmatch, Hmodel, Hdegraded.
  destruct (manual_category_detection (str_lower sanitized)) as [c|] eqn:Hc.
  - rewrite (Hmatch c eq_refl). eexists.
    cbn [fst snd stored logged calls collection]. rewrite <- app_assoc.
    split; [done |]. cbn [app].
    split; [| split]; intros ? Hin; in_cases Hin.
    injection Hin as ->. by eexists.
  - destruct (available ml) eqn:Hav.
    + destruct (Hmodel eq_refl eq_refl) as [[e ->] | [label ->]]; eexists;
        cbn [fst snd stored logged calls collection]; rewrite <- ?app_assoc;
        (split; [done |]); cbn [app];
        (split; [| split]); intros ? Hin; in_cases Hin;
        try (by injection Hin as ->).
      injection Hin as ->. by eexists.
    + rewrite (Hdegraded eq_refl eq_refl). eexists.
      cbn [fst snd stored logged calls collection]. rewrite <- app_assoc.
      split; [done |]. cbn [app].
      split; [| split]; intros ? Hin; in_cases Hin.
      injection Hin as ->. by eexists.
Qed.

(** X21.  When the three artifacts are loaded and no keyword matches, the
    answer follows the model: the validated label is stored when the three
    calls return, and when one of them raises the answer is status 500 with
    the exception's message and nothing is stored. *)
Theorem model_branch_outcome (request_json : pyval) (utcnow : Z) (w : world)
    (raw sanitized : pystr) (predict : features → result Z)
    (vectorizer : pystr → result features) (decode : Z → result pystr) :
  read_complaint request_json = Ok raw →
  sanitize_text (PStr raw) = Ok sanitized →
  (10 ≤ length (str_lower sanitized))%nat →
  manual_category_detection (str_lower sanitized) = None →
  model ml = Some predict → tfidf_vectorizer ml = Some vectorizer →
  label_encoder ml = Some decode →
  let text := str_lower sanitized in
  let w1 := logged w [CallSanitize (PStr raw); CallManual text; CallModel text] in
  submit_complaint ml request_json utcnow w
  = match model_label vectorizer predict decode text with
    | Ok label =>
        let c := validate_prediction label text in
        (Ok (submitted None c), stored w1 (make_entry text None c utcnow))
    | Raise e => (Ok (server_error e), w1)
    end.
Proof.
  intros Hread Hsan Hlen Hc Hm Hv He text w1. subst text w1.
  unfold submit_complaint.
  rewrite (submit_complaint_with_run _ _ _ _ _ _ Hread Hsan). cbn zeta.
  rewrite (proj2 (Nat.ltb_ge _ _) Hlen).
  unfold classify, bind, call_manual, bind, record_call, ret.
  rewrite Hc, Hm, Hv, He. cbn [truthy_opt collection calls logged].
  unfold call_model, model_label, bind, record_call, lift, ret, stored, logged.
  cbn [collection calls]. rewrite <- !app_assoc. cbn [app].
  destruct (vectorizer (str_lower sanitized)) as [tfidf|e]; [| done].
  destruct (predict tfidf) as [index|e]; [| done].
  by destruct (decode index) as [label|e].
Qed.

End SubmitCalls.

Lemma model_branch_outcome_witness :
  let request_json := complaint_request "hello world!!" in
  let ml := failing_model (py "vocabulary not fitted") in
  read_complaint (rt := ascii_runtime) request_json = Ok (py "hello world!!") ∧
  manual_category_detection (rt := ascii_runtime) (py "hello world!!") = None ∧
  submit_complaint (rt := ascii_runtime) ml request_json 0 empty_world
  = (Ok (server_error (py "vocabulary not fitted")),
     logged empty_world
       [CallSanitize (PStr (py "hello world!!")); CallManual (py "hello world!!");
        CallModel (py "hello world!!")]).
Proof.
  intros request_json ml.
  split; [reflexivity |]. split; [reflexivity |].
  assert (Hlen : (10 ≤ length (str_lower (PyRuntime := ascii_runtime)
                                 (py "hello world!!")))%nat)
    by (vm_compute; lia).
  exact (model_branch_outcome (rt := ascii_runtime) ml request_json 0 empty_world
           (py "hello world!!") (py "hello world!!") _ _ _
           eq_refl eq_refl Hlen eq_refl eq_refl eq_refl eq_refl).
Defined.
